(** * OpenSlides client: projector service and login mask

    A shallow embedding of [ProjectorService] and [LoginMaskComponent]
    (TypeScript), with the properties of their specification stated and
    proved over it.

    Arrays are lists, optional arguments and optional object keys are
    [option]s, a [number] used as an array index is an integer of [Z].
    An [async] method is a computation over the projector object it is
    handed: it mutates the object, may issue HTTP requests, and completes
    by resolving, by throwing, or by the rejection of the request it
    awaits. *)

From Stdlib Require Import List ZArith String Bool Arith Lia.
Import ListNotations.

Local Open Scope string_scope.
Local Open Scope list_scope.

(** ** Data model (app/shared/models/core/projector) *)

(** A projector element: [name], the optional [id] and the [stable] flag.
    A missing [stable] key reads as falsy, which is [false] here. *)
Record ProjectorElement : Type := mkElement {
  name : string;
  id : option Z;
  stable : bool
}.

Definition ProjectorElements : Type := list ProjectorElement.

(** The fields of [Projector] the service reads and writes. *)
Record Projector : Type := mkProjector {
  projector_id : Z;
  elements : ProjectorElements;
  elements_preview : ProjectorElements;
  elements_history : list ProjectorElements
}.

Definition set_elements (p : Projector) (l : ProjectorElements) : Projector :=
  mkProjector (projector_id p) l (elements_preview p) (elements_history p).

Definition set_elements_preview (p : Projector) (l : ProjectorElements) : Projector :=
  mkProjector (projector_id p) (elements p) l (elements_history p).

(** ** Requests *)

(** The body [requestData] of a project request; every key is optional. *)
Record RequestData : Type := mkRequestData {
  rq_elements : option ProjectorElements;
  rq_preview : option ProjectorElements;
  rq_append_to_history : option ProjectorElements;
  rq_delete_last_history_element : option bool
}.

(** A POST to [/rest/core/projector/${projector.id}/project/]. *)
Record Request : Type := mkRequest {
  rq_projector : Z;
  rq_body : RequestData
}.

(** The transport [HttpService.post]: [None] when the promise resolves,
    [Some e] when it rejects with [e]. *)
Definition Transport : Type := Request -> option string.

(** ** Computations of the service *)

(** How an [async] method ends: it resolves with a value, an [Error] is
    thrown by the method's own code, or the awaited request rejects. *)
Inductive Outcome (A : Type) : Type :=
| Resolved (a : A)
| Thrown (msg : string)
| Rejected (err : string).

Arguments Resolved {A} a.
Arguments Thrown {A} msg.
Arguments Rejected {A} err.

(** What is left after a call: how it ended, the projector object as the
    call left it, and the requests handed to the transport, in order. *)
Record Result (A : Type) : Type := mkResult {
  outcome : Outcome A;
  state : Projector;
  sent : list Request
}.

Arguments mkResult {A} _ _ _.
Arguments outcome {A} _.
Arguments state {A} _.
Arguments sent {A} _.

Definition Service (A : Type) : Type := Transport -> Projector -> Result A.

Definition ret {A : Type} (a : A) : Service A :=
  fun _ p => mkResult (Resolved a) p [].

(** Sequencing, [await] included: a throw or a rejection ends the method
    there, and nothing of the mutation done so far is undone. *)
Definition bind {A B : Type} (m : Service A) (f : A -> Service B) : Service B :=
  fun http p =>
    let r := m http p in
    match outcome r with
    | Resolved a =>
        let r' := f a http (state r) in
        mkResult (outcome r') (state r') (sent r ++ sent r')
    | Thrown msg => mkResult (Thrown msg) (state r) (sent r)
    | Rejected err => mkResult (Rejected err) (state r) (sent r)
    end.

Definition throw {A : Type} (msg : string) : Service A :=
  fun _ p => mkResult (Thrown msg) p [].

(** Reads the projector object. *)
Definition get : Service Projector :=
  fun _ p => mkResult (Resolved p) p [].

(** Overwrites the projector object. *)
Definition put (p' : Projector) : Service unit :=
  fun _ _ => mkResult (Resolved tt) p' [].

(** [await this.http.post(url, body)]. *)
Definition http_post (r : Request) : Service unit :=
  fun http p =>
    match http r with
    | None => mkResult (Resolved tt) p [r]
    | Some err => mkResult (Rejected err) p [r]
    end.

Declare Scope service_scope.
Delimit Scope service_scope with service.

Notation "x <- c1 ;; c2" := (bind c1 (fun x => c2))
  (at level 61, c1 at next level, right associativity) : service_scope.
Notation "c1 ;; c2" := (bind c1 (fun _ => c2))
  (at level 61, right associativity) : service_scope.

Local Open Scope service_scope.

(** ** The methods of [Projector] the service calls *)

(** Modelled from the spec: [Projector.addElement] is not among the sources;
    the spec has a projected element appended to [elements]. *)
Definition addElement (element : ProjectorElement) : Service unit :=
  p <- get ;;
  put (set_elements p (elements p ++ [element])).

(** Modelled from the spec: [Projector.removeAllNonStableElements] is not
    among the sources; the spec has it remove every non-stable element from
    [elements] and hand them back as a group, in the order they were shown. *)
Definition removeAllNonStableElements : Service ProjectorElements :=
  p <- get ;;
  put (set_elements p (filter stable (elements p))) ;;
  ret (filter (fun e => negb (stable e)) (elements p)).

(** ** [ProjectorService.projectRequest] *)

(** JavaScript truthiness of the optional arguments: an array, even an empty
    one, is truthy; [null] and [undefined] are not. *)
Definition given {A : Type} (o : option A) : bool :=
  match o with Some _ => true | None => false end.

(** [appendToHistory && appendToHistory.length] *)
Definition given_nonempty (o : option ProjectorElements) : bool :=
  match o with Some (_ :: _) => true | _ => false end.

(** [deleteLastHistroyElement] as a condition. *)
Definition flag (o : option bool) : bool :=
  match o with Some b => b | None => false end.

Definition append_and_delete_msg : string :=
  "You cannot append to the history and delete the last element at the same time".

Definition requestData
    (elements preview appendToHistory : option ProjectorElements)
    (deleteLastHistroyElement : option bool) : RequestData :=
  mkRequestData
    (if given elements then elements else None)
    (if given preview then preview else None)
    (if given_nonempty appendToHistory then appendToHistory else None)
    (if flag deleteLastHistroyElement then Some true else None).

Definition projectRequest
    (projector : Projector)
    (elements preview appendToHistory : option ProjectorElements)
    (deleteLastHistroyElement : option bool) : Service unit :=
  let data := requestData elements preview appendToHistory deleteLastHistroyElement in
  if given_nonempty appendToHistory && flag deleteLastHistroyElement
  then throw append_and_delete_msg
  else http_post (mkRequest (projector_id projector) data).

(** ** Objects that can be projected (app/site/base/projectable) *)

(** A [ProjectorElementBuildDeskriptor], reduced to the method the service
    calls. *)
Record ProjectorElementBuildDeskriptor : Type := mkDeskriptor {
  getBasicProjectorElement : ProjectorElement
}.

(** A value of [Projectable | ProjectorElementBuildDeskriptor |
    IdentifiableProjectorElement]. The union is structural, so one object may
    carry [getSlide], [getBasicProjectorElement], both or neither; read as an
    element it has the fields of [obj_element]. *)
Record ProjectionObject : Type := mkObject {
  obj_getSlide : option ProjectorElementBuildDeskriptor;
  obj_getBasicProjectorElement : option ProjectorElement;
  obj_element : ProjectorElement
}.

(** Modelled from the spec: the type guard [isProjectable] is not among the
    sources; the spec has it hold of an object that can be converted to a
    slide. *)
Definition isProjectable (obj : ProjectionObject) : bool :=
  given (obj_getSlide obj).

(** Modelled from the spec: the type guard [isProjectorElementBuildDeskriptor]
    is not among the sources; the spec has it hold of an object that exposes
    the capability to build a basic element. *)
Definition isProjectorElementBuildDeskriptor (obj : ProjectionObject) : bool :=
  given (obj_getBasicProjectorElement obj).

(** [ProjectorService.getProjectorElement]: the first branch is taken when
    [isProjectable obj], the second when [isProjectorElementBuildDeskriptor
    obj], the last returns [obj] itself. *)
Definition getProjectorElement (obj : ProjectionObject) : ProjectorElement :=
  match obj_getSlide obj with
  | Some slide => getBasicProjectorElement slide
  | None =>
      match obj_getBasicProjectorElement obj with
      | Some element => element
      | None => obj_element obj
      end
  end.

(** The resolution order in the words of the specification: the capability
    to build a basic element first, the slide second, the object last. *)
Definition resolution_order_spec (obj : ProjectionObject) : ProjectorElement :=
  match obj_getBasicProjectorElement obj with
  | Some element => element
  | None =>
      match obj_getSlide obj with
      | Some slide => getBasicProjectorElement slide
      | None => obj_element obj
      end
  end.

(** An [IdentifiableProjectorElement] handed over where an object is
    expected. *)
Definition element_object (element : ProjectorElement) : ProjectionObject :=
  mkObject None None element.

(** ** Array operations of the language *)

(** [array.splice(start, 1)]: the deleted elements and what is left. A
    negative [start] counts from the end and is clamped at 0, a [start]
    beyond the end is clamped at the length. *)
Definition splice1 {A : Type} (start : Z) (l : list A) : list A * list A :=
  let len := Z.of_nat (List.length l) in
  let actualStart :=
    if (start <? 0)%Z then Z.max (len + start) 0 else Z.min start len in
  let n := Z.to_nat actualStart in
  (firstn 1 (skipn n l), firstn n l ++ skipn (S n) l).

(** [array.forEach(f)] *)
Fixpoint forEach {A : Type} (l : list A) (f : A -> Service unit) : Service unit :=
  match l with
  | [] => ret tt
  | x :: l' => f x ;; forEach l' f
  end.

(** [projector.elements_preview.unshift(e)] *)
Definition unshift_preview (e : ProjectorElement) : Service unit :=
  p <- get ;;
  put (set_elements_preview p (e :: elements_preview p)).

(** [projector.elements_preview.push(e)] *)
Definition push_preview (e : ProjectorElement) : Service unit :=
  p <- get ;;
  put (set_elements_preview p (elements_preview p ++ [e])).

(** [projector.elements_preview.splice(previewIndex, 1)] *)
Definition splice_preview (previewIndex : Z) : Service ProjectorElements :=
  p <- get ;;
  put (set_elements_preview p (snd (splice1 previewIndex (elements_preview p)))) ;;
  ret (fst (splice1 previewIndex (elements_preview p))).

(** ** The methods of [ProjectorService] that compare no elements *)

(** [projectPreviewSlide(projector, previewIndex)]. The [[0]] of an empty
    [splice] result would be [undefined]; the guard excludes it (see
    [splice1_in_range]), and the model adds nothing there. *)
Definition projectPreviewSlide (previewIndex : Z) : Service unit :=
  p <- get ;;
  if (List.length (elements_preview p) =? 0)%nat
     || (previewIndex >=? Z.of_nat (List.length (elements_preview p)))%Z
  then ret tt
  else
    removedElements <- removeAllNonStableElements ;;
    spliced <- splice_preview previewIndex ;;
    match spliced with
    | element :: _ => addElement element
    | [] => ret tt
    end ;;
    p <- get ;;
    projectRequest p (Some (elements p)) (Some (elements_preview p))
      (Some removedElements) None.

(** [projectNextSlide(projector)] *)
Definition projectNextSlide : Service unit :=
  projectPreviewSlide 0.

(** [projectPreviousSlide(projector)] *)
Definition projectPreviousSlide : Service unit :=
  p <- get ;;
  if (List.length (elements_history p) =? 0)%nat
  then ret tt
  else
    let lastElements := last (elements_history p) [] in
    let lastElement := hd_error lastElements in
    removedElements <- removeAllNonStableElements ;;
    forEach removedElements unshift_preview ;;
    match lastElement with
    | Some element => addElement element
    | None => ret tt
    end ;;
    p <- get ;;
    projectRequest p (Some (elements p)) (Some (elements_preview p)) None (Some true).

(** [savePreview(projector)] *)
Definition savePreview : Service unit :=
  p <- get ;;
  projectRequest p None (Some (elements_preview p)) None None.

(** [addElementToPreview(projector, element)] *)
Definition addElementToPreview (element : ProjectorElement) : Service unit :=
  push_preview element ;;
  p <- get ;;
  projectRequest p None (Some (elements_preview p)) None None.

(** [projectOn(projector, obj)]. In the non-stable branch [if (element)]
    tests an object, which is truthy, so [changed] ends up [true]. *)
Definition projectOn (obj : ProjectionObject) : Service unit :=
  let element := getProjectorElement obj in
  if stable element
  then
    addElement element ;;
    p <- get ;;
    projectRequest p (Some (elements p)) None None None
  else
    removedElements <- removeAllNonStableElements ;;
    let changed := (0 <? List.length removedElements)%nat in
    addElement element ;;
    let changed := true in
    if changed
    then
      p <- get ;;
      projectRequest p (Some (elements p)) None (Some removedElements) None
    else ret tt.

(** ** The methods that match elements *)

Section Matching.

(** Modelled from the spec: how [Projector.isElementShown] and
    [Projector.removeElements] compare an element with one on the projector
    is not among the sources; the spec only says that it is an identifying
    equality on the element's fields, so it is left open.
    [identifies element elementOnProjector] holds when [element] stands for
    [elementOnProjector]. *)
Variable identifies : ProjectorElement -> ProjectorElement -> bool.

(** Modelled from the spec: [Projector.isElementShown] is not among the
    sources; the spec has it test membership in the current [elements]. *)
Definition isElementShown (element : ProjectorElement) (projector : Projector) : bool :=
  existsb (identifies element) (elements projector).

(** Modelled from the spec: [Projector.removeElements] is not among the
    sources; the spec has it remove every occurrence matching the element
    from [elements] and hand back what it removed. *)
Definition removeElements (element : ProjectorElement) : Service ProjectorElements :=
  p <- get ;;
  put (set_elements p (filter (fun e => negb (identifies element e)) (elements p))) ;;
  ret (filter (identifies element) (elements p)).

(** [isProjectedOn(obj, projector)] *)
Definition isProjectedOn (obj : ProjectionObject) (projector : Projector) : bool :=
  isElementShown (getProjectorElement obj) projector.

(** [removeFrom(projector, obj)] *)
Definition removeFrom (obj : ProjectionObject) : Service unit :=
  let element := getProjectorElement obj in
  removedElements <- removeElements element ;;
  if (0 <? List.length removedElements)%nat
  then
    if stable element
    then
      p <- get ;;
      projectRequest p (Some (elements p)) None None None
    else
      p <- get ;;
      projectRequest p (Some (elements p)) None (Some removedElements) None
  else ret tt.

(** [projectOnMultiple(projectors, element)] over the projectors of the data
    store. [projectors.includes(projector)] compares object references; a
    reference is the position of the object in the store, [i] being the
    position of the head of [store]. The calls are not awaited: each runs up
    to its request, and its promise is dropped. *)
Fixpoint projectOnMultiple_from (i : nat) (store : list Projector)
    (projectors : list nat) (element : ProjectorElement) (http : Transport)
    : list (Result unit) :=
  match store with
  | [] => []
  | projector :: rest =>
      (if existsb (Nat.eqb i) projectors
       then projectOn (element_object element) http projector
       else if isElementShown element projector
       then removeFrom (element_object element) http projector
       else ret tt http projector)
      :: projectOnMultiple_from (S i) rest projectors element http
  end.

Definition projectOnMultiple (store : list Projector) (projectors : list nat)
    (element : ProjectorElement) (http : Transport) : list (Result unit) :=
  projectOnMultiple_from 0 store projectors element http.

(** The state-changing operations on one projector, as a caller picks them. *)
Inductive Operation : Type :=
| ProjectOn (obj : ProjectionObject)
| RemoveFrom (obj : ProjectionObject)
| ProjectPreviewSlide (previewIndex : Z)
| ProjectNextSlide
| ProjectPreviousSlide
| AddElementToPreview (element : ProjectorElement)
| SavePreview.

Definition perform (op : Operation) : Service unit :=
  match op with
  | ProjectOn obj => projectOn obj
  | RemoveFrom obj => removeFrom obj
  | ProjectPreviewSlide previewIndex => projectPreviewSlide previewIndex
  | ProjectNextSlide => projectNextSlide
  | ProjectPreviousSlide => projectPreviousSlide
  | AddElementToPreview element => addElementToPreview element
  | SavePreview => savePreview
  end.

End Matching.

(** ** The login mask *)

Module LoginMask.

(** The error keys a control or the form can carry. *)
Inductive ValidationError : Type :=
| required
| maxlength
| notFound.

Definition ValidatorFn : Type := string -> option ValidationError.

(** Angular's [Validators.required] on a text control: the empty value is
    an error. *)
Definition Validators_required : ValidatorFn :=
  fun value => if (String.length value =? 0)%nat then Some required else None.

(** Angular's [Validators.maxLength(n)]: a value longer than [n] is an
    error. *)
Definition Validators_maxLength (n : nat) : ValidatorFn :=
  fun value => if (n <? String.length value)%nat then Some maxlength else None.

Record FormControl : Type := mkControl {
  value : string;
  validators : list ValidatorFn
}.

(** The form group of the login mask; [group_errors] is what [setErrors]
    put on the group itself. *)
Record FormGroup : Type := mkGroup {
  username : FormControl;
  password : FormControl;
  group_errors : list ValidationError
}.

Definition control_errors (c : FormControl) : list ValidationError :=
  flat_map
    (fun v => match v (value c) with Some e => [e] | None => [] end)
    (validators c).

(** [form.valid]: no control and not the group itself carries an error. *)
Definition valid (f : FormGroup) : bool :=
  match control_errors (username f), control_errors (password f), group_errors f with
  | [], [], [] => true
  | _, _, _ => false
  end.

(** [createForm()] *)
Definition createForm : FormGroup :=
  mkGroup
    (mkControl "" [Validators_required; Validators_maxLength 128])
    (mkControl "" [Validators_required; Validators_maxLength 128])
    [].

(** The user fills in both inputs; the controls are validated anew. *)
Definition fill (f : FormGroup) (u p : string) : FormGroup :=
  mkGroup
    (mkControl u (validators (username f)))
    (mkControl p (validators (password f)))
    [].

(** [loginForm.setErrors({ notFound: true })] *)
Definition setErrors_notFound (f : FormGroup) : FormGroup :=
  mkGroup (username f) (password f) [notFound].

Record Component : Type := mkComponent {
  loginForm : FormGroup;
  loginErrorMsg : string;
  operatorSubscription : bool
}.

(** What the component does to its collaborators, in order. *)
Inductive Effect : Type :=
| ShowSpinner (message : string) (blocking : bool)
| HideSpinner
| AuthLogin (user pass : string)
| Unsubscribe.

Definition loginMessage : string := "Loading data. Please wait...".

(** [clearOperatorSubscription()] *)
Definition clearOperatorSubscription (c : Component) : Component * list Effect :=
  if operatorSubscription c
  then (mkComponent (loginForm c) (loginErrorMsg c) false, [Unsubscribe])
  else (c, []).

Section FormLogin.

(** [translate.instant] *)
Variable instant : string -> string.

(** [authService.login(username, password, callback)]: whether it calls the
    callback, and the error it throws, if any. *)
Variable login : string -> string -> bool * option string.

(** [formLogin()] *)
Definition formLogin (c : Component) : Component * list Effect :=
  let c := mkComponent (loginForm c) "" (operatorSubscription c) in
  let u := value (username (loginForm c)) in
  let p := value (password (loginForm c)) in
  let started := [ShowSpinner (instant loginMessage) true; AuthLogin u p] in
  let (called_back, failure) := login u p in
  let (c, cleared) := if called_back then clearOperatorSubscription c else (c, []) in
  match failure with
  | None => (c, started ++ cleared)
  | Some e =>
      (mkComponent (setErrors_notFound (loginForm c)) e (operatorSubscription c),
       started ++ cleared ++ [HideSpinner])
  end.

End FormLogin.

(** Whether [authService.login] is among the effects. *)
Definition is_AuthLogin (e : Effect) : bool :=
  match e with AuthLogin _ _ => true | _ => false end.

End LoginMask.

(** ** Notions the properties are stated with *)

(** The method ended by throwing an [Error] of its own. *)
Definition throws {A : Type} (r : Result A) : bool :=
  match outcome r with Thrown _ => true | _ => false end.

Definition nonStable (e : ProjectorElement) : bool := negb (stable e).

Definition nonStableCount (l : ProjectorElements) : nat :=
  List.length (filter nonStable l).

(** The invariant of a projector: at most one non-stable element is shown. *)
Definition atMostOneNonStable (p : Projector) : Prop :=
  (nonStableCount (elements p) <= 1)%nat.

(** A transport whose requests all resolve, and one whose requests all
    reject. *)
Definition resolving : Transport := fun _ => None.

Definition rejecting (err : string) : Transport := fun _ => Some err.

(** One identifying equality: the same [name] and the same [id]. *)
Definition same_name_and_id (element elementOnProjector : ProjectorElement) : bool :=
  String.eqb (name element) (name elementOnProjector)
  && match id element, id elementOnProjector with
     | Some i, Some j => Z.eqb i j
     | None, None => true
     | _, _ => false
     end.

(** The request [rq] was built from the projector as [p] holds it: it goes to
    [p]'s endpoint, and the sequences it carries are the ones of [p]. *)
Definition carries_state_of (p : Projector) (rq : Request) : Prop :=
  rq_projector rq = projector_id p
  /\ (rq_elements (rq_body rq) = None
      \/ rq_elements (rq_body rq) = Some (elements p))
  /\ (rq_preview (rq_body rq) = None
      \/ rq_preview (rq_body rq) = Some (elements_preview p)).

(** How the method that sent [rq] over [http] ends when it awaits it. *)
Definition awaited (http : Transport) (rq : Request) : Outcome unit :=
  match http rq with
  | None => Resolved tt
  | Some err => Rejected err
  end.

(** *** The scenario of the specification *)

Definition slide_A : ProjectorElement := mkElement "A" None true.
Definition slide_B : ProjectorElement := mkElement "B" (Some 1%Z) false.
Definition slide_C : ProjectorElement := mkElement "C" (Some 2%Z) false.

Definition scenario_projector : Projector :=
  mkProjector 1 [slide_A] [slide_B; slide_C] [].

(** The request body the specification expects in the scenario: the new
    elements, the new preview and [append_to_history: []]. *)
Definition scenario_request_spec : Request :=
  mkRequest 1
    (mkRequestData (Some [slide_A; slide_C]) (Some [slide_B]) (Some []) None).

(** The request the scenario sends. *)
Definition scenario_request : Request :=
  mkRequest 1
    (mkRequestData (Some [slide_A; slide_C]) (Some [slide_B]) None None).

(** *** [projectPreviousSlide] in the words of the specification *)

(** The last history entry is removed, the current non-stable elements go to
    the front of the preview in their order, the first element of the
    removed entry is added, and the request carries the elements, the
    preview and [delete_last_history_element: true]. *)
Definition projectPreviousSlide_spec (p : Projector) (r : Result unit) : Prop :=
  elements_history (state r) = removelast (elements_history p)
  /\ elements_preview (state r) = filter nonStable (elements p) ++ elements_preview p
  /\ elements (state r)
     = filter stable (elements p) ++ firstn 1 (last (elements_history p) [])
  /\ sent r
     = [mkRequest (projector_id p)
          (mkRequestData (Some (elements (state r)))
             (Some (elements_preview (state r))) None (Some true))].

(** What [projectPreviousSlide] does to a projector with a history. *)
Definition projectPreviousSlide_effect (p : Projector) (r : Result unit) : Prop :=
  elements_history (state r) = elements_history p
  /\ elements_preview (state r) = filter nonStable (elements p) ++ elements_preview p
  /\ elements (state r)
     = filter stable (elements p) ++ firstn 1 (last (elements_history p) [])
  /\ sent r
     = [mkRequest (projector_id p)
          (mkRequestData (Some (elements (state r)))
             (Some (elements_preview (state r))) None (Some true))].

(** A projector showing two non-stable slides, with one history entry. *)
Definition two_slides_projector : Projector :=
  mkProjector 7 [slide_B; slide_C] [] [[slide_A]].

(** A projector showing one non-stable slide, with two history entries. *)
Definition history_projector : Projector :=
  mkProjector 7 [slide_A; slide_C] [slide_B] [[]; [slide_B]].

(** A projector whose preview holds one slide. *)
Definition one_preview_projector : Projector :=
  mkProjector 3 [] [slide_B] [].

(** *** Objects and login data used as examples *)

(** An object that is a [Projectable] and a build deskriptor at once, the
    two capabilities giving different elements. *)
Definition both_capabilities : ProjectionObject :=
  mkObject (Some (mkDeskriptor slide_B)) (Some slide_C) slide_A.

(** A user name of 129 characters. *)
Definition long_username : string :=
  String.concat "" (repeat "a" 129).

(** The component after the user typed [u] and [p]. *)
Definition typed (u p : string) : LoginMask.Component :=
  LoginMask.mkComponent (LoginMask.fill LoginMask.createForm u p) "" false.

(** An authentication service that accepts every login and leaves the
    callback alone. *)
Definition accepting : string -> string -> bool * option string :=
  fun _ _ => (false, None).

(** *** How a method ends *)

(** A method that has brought the projector to [p'] and then, if [body] is
    given, awaits the request with that body: [p'] is what it leaves, the
    request is the one it sent, and the transport decides how it ends. *)
Definition complete (http : Transport) (p' : Projector) (body : option RequestData)
    : Result unit :=
  match body with
  | None => mkResult (Resolved tt) p' []
  | Some b =>
      mkResult (awaited http (mkRequest (projector_id p') b)) p'
        [mkRequest (projector_id p') b]
  end.

(** ** The queries of [ProjectorService] over the data store *)

Section StoreQueries.

Variable identifies : ProjectorElement -> ProjectorElement -> bool.

(** [isProjected(obj)]; [store] is [DS.getAll('core/projector')]. *)
Definition isProjected (store : list Projector) (obj : ProjectionObject) : bool :=
  let element := getProjectorElement obj in
  existsb (fun projector => isElementShown identifies element projector) store.

(** [getProjectorsWhichAreProjecting(obj)] *)
Definition getProjectorsWhichAreProjecting (store : list Projector)
    (obj : ProjectionObject) : list Projector :=
  let element := getProjectorElement obj in
  filter (fun projector => isElementShown identifies element projector) store.

End StoreQueries.

(** A projection default, reduced to its [name]. *)
Record ProjectionDefault : Type := mkProjectionDefault {
  pd_name : string
}.

(** A projector of the store together with its [projectiondefaults], the one
    field [getProjectorForDefault] reads. *)
Record ProjectorWithDefaults : Type := mkProjectorWithDefaults {
  the_projector : Projector;
  projectiondefaults : list ProjectionDefault
}.

(** [array.includes(x)] on strings. *)
Definition includes (l : list string) (x : string) : bool :=
  existsb (String.eqb x) l.

(** [getProjectorForDefault(projectiondefault)]: [find] gives the first
    projector of the store that passes the test, [undefined] when none
    does. *)
Definition getProjectorForDefault (store : list ProjectorWithDefaults)
    (projectiondefault : string) : option ProjectorWithDefaults :=
  find
    (fun projector =>
       includes (map pd_name (projectiondefaults projector)) projectiondefault)
    store.

(** ** Mapping an element to its model *)

(** An [IdentifiableProjectorElement]: the element and the names its
    [getIdentifiers()] returns. *)
Record IdentifiableProjectorElement : Type := mkIdentifiable {
  the_element : ProjectorElement;
  getIdentifiers : list string
}.

Definition cannot_be_mapped_msg : string :=
  "This projector element cannot be mapped to a model".

Definition name_and_id_needed_msg : string :=
  "To map this element to a model, a name and id is needed.".

Section Mapping.

(** [slideManager.canSlideBeMappedToModel] *)
Variable canSlideBeMappedToModel : string -> bool.

(** The models of the data store and the view models of the view model
    store; [get(name, id)] is [undefined] where nothing is stored. *)
Variables Model ViewModel : Type.
Variable DS_get : string -> option Z -> option Model.
Variable viewModelStore_get : string -> option Z -> option ViewModel.

(** [assertElementIsMappable(element)]: [inl msg] when it throws. *)
Definition assertElementIsMappable (element : IdentifiableProjectorElement)
    : string + unit :=
  if negb (canSlideBeMappedToModel (name (the_element element)))
  then inl cannot_be_mapped_msg
  else
    let identifiers := getIdentifiers element in
    if negb (includes identifiers "name") || negb (includes identifiers "id")
    then inl name_and_id_needed_msg
    else inr tt.

(** [getModelFromProjectorElement(element)] *)
Definition getModelFromProjectorElement (element : IdentifiableProjectorElement)
    : string + option Model :=
  match assertElementIsMappable element with
  | inl msg => inl msg
  | inr _ => inr (DS_get (name (the_element element)) (id (the_element element)))
  end.

(** [getViewModelFromProjectorElement(element)] *)
Definition getViewModelFromProjectorElement (element : IdentifiableProjectorElement)
    : string + option ViewModel :=
  match assertElementIsMappable element with
  | inl msg => inl msg
  | inr _ =>
      inr (viewModelStore_get (name (the_element element)) (id (the_element element)))
  end.

End Mapping.

(** ** The operator watch of the login mask *)

Module OperatorWatch.

(** The user the operator observable yields, reduced to its [id]. *)
Record User : Type := mkUser {
  user_id : Z
}.

(** What the watch does: an effect of the component, or
    [authService.redirectUser(id)]. *)
Inductive Action : Type :=
| Did (e : LoginMask.Effect)
| RedirectUser (id : Z).

(** The callback [ngOnInit] subscribes to the operator observable. *)
Definition onUser (user : option User) (c : LoginMask.Component)
    : LoginMask.Component * list Action :=
  match user with
  | Some u =>
      let (c', effects) := LoginMask.clearOperatorSubscription c in
      (c', map Did effects ++ [RedirectUser (user_id u)])
  | None => (c, [])
  end.

(** [this.operatorSubscription = ...subscribe(...)] of [ngOnInit], once
    [subscribe] has returned: the component holds the subscription. *)
Definition subscribeOperator (c : LoginMask.Component) : LoginMask.Component :=
  LoginMask.mkComponent (LoginMask.loginForm c) (LoginMask.loginErrorMsg c) true.

(** The values the operator observable emits after the subscription is
    stored. A value reaches the callback only while the subscription has not
    been unsubscribed. *)
Fixpoint emit (users : list (option User)) (c : LoginMask.Component)
    : LoginMask.Component * list Action :=
  match users with
  | [] => (c, [])
  | user :: rest =>
      if LoginMask.operatorSubscription c
      then
        let (c1, a1) := onUser user c in
        let (c2, a2) := emit rest c1 in
        (c2, a1 ++ a2)
      else (c, [])
  end.

(** [ngOnDestroy()] *)
Definition ngOnDestroy (c : LoginMask.Component)
    : LoginMask.Component * list LoginMask.Effect :=
  LoginMask.clearOperatorSubscription c.

End OperatorWatch.

(** *** Notions for the further properties *)

(** The projectors of the store after [projectOnMultiple]. *)
Definition store_after (results : list (Result unit)) : list Projector :=
  map state results.

(** What a request body may look like: an [append_to_history] that is given
    is not empty, a delete flag that is given is [true], and the two are not
    given together. *)
Definition body_in_shape (b : RequestData) : bool :=
  match rq_append_to_history b, rq_delete_last_history_element b with
  | None, None => true
  | None, Some delete => delete
  | Some (_ :: _), None => true
  | _, _ => false
  end.

Definition is_RemoveFrom (op : Operation) : bool :=
  match op with RemoveFrom _ => true | _ => false end.

(** A projector store of three, used as an example. *)
Definition example_store : list Projector :=
  [ mkProjector 1 [slide_A; slide_B] [] [];
    mkProjector 2 [slide_C] [] [];
    mkProjector 3 [slide_A] [slide_B] [] ].

(** * Properties *)

(** ** The request builder *)

Lemma projectRequest_state :
  forall q els pv app del http p,
    state (projectRequest q els pv app del http p) = p.
Proof.
  intros. unfold projectRequest, throw, http_post.
  destruct (given_nonempty app && flag del); cbn; [reflexivity|].
  destruct (http _); reflexivity.
Qed.

Lemma projectRequest_without_delete :
  forall q els pv app http p,
    projectRequest q els pv app None http p
    = mkResult
        (awaited http (mkRequest (projector_id q) (requestData els pv app None)))
        p
        [mkRequest (projector_id q) (requestData els pv app None)].
Proof.
  intros. unfold projectRequest, http_post, awaited, flag.
  rewrite andb_false_r. destruct (http _); reflexivity.
Qed.

Lemma projectRequest_without_append :
  forall q els pv del http p,
    projectRequest q els pv None del http p
    = mkResult
        (awaited http (mkRequest (projector_id q) (requestData els pv None del)))
        p
        [mkRequest (projector_id q) (requestData els pv None del)].
Proof.
  intros. unfold projectRequest, http_post, awaited. cbn [given_nonempty andb].
  destruct (http _); reflexivity.
Qed.

(** C6. Building a request throws the error about appending and deleting at
    once exactly when a non-empty append-to-history list and the
    delete-last-history-element flag are both given, and then nothing is
    sent; in every other case nothing is thrown and the one request goes to
    the transport. *)
Theorem projectRequest_throws_iff_append_and_delete :
  forall (q : Projector) (els pv app : option ProjectorElements)
         (del : option bool) (http : Transport) (p : Projector),
    let r := projectRequest q els pv app del http p in
    let rq := mkRequest (projector_id q) (requestData els pv app del) in
    throws r = given_nonempty app && flag del
    /\ outcome r = (if throws r then Thrown append_and_delete_msg else awaited http rq)
    /\ sent r = (if throws r then [] else [rq]).
Proof.
  intros q els pv app del http p. cbv zeta.
  unfold projectRequest, throws, throw, http_post, awaited.
  destruct (given_nonempty app && flag del); cbn.
  - repeat split.
  - destruct (http _); cbn; repeat split.
Qed.

(** ** Element resolution *)

(** C3, as the code has it. A projectable object resolves to the element of
    its slide; an object that is not projectable but exposes the capability
    to build a basic element resolves to what that builds; any other object
    is the element itself. *)
Theorem getProjectorElement_order :
  forall obj : ProjectionObject,
    (forall slide, obj_getSlide obj = Some slide ->
       isProjectable obj = true
       /\ getProjectorElement obj = getBasicProjectorElement slide)
    /\ (forall element,
          isProjectable obj = false ->
          obj_getBasicProjectorElement obj = Some element ->
          isProjectorElementBuildDeskriptor obj = true
          /\ getProjectorElement obj = element)
    /\ (isProjectable obj = false ->
        isProjectorElementBuildDeskriptor obj = false ->
        getProjectorElement obj = obj_element obj).
Proof.
  intros [slide basic self].
  unfold isProjectable, isProjectorElementBuildDeskriptor, getProjectorElement; cbn.
  split; [|split].
  - intros s Hs. rewrite Hs. split; reflexivity.
  - intros element Hp Hb. rewrite Hb. split; [reflexivity|].
    destruct slide; [discriminate | reflexivity].
  - intros Hp Hb. destruct slide; [discriminate|].
    destruct basic; [discriminate | reflexivity].
Qed.

Lemma getProjectorElement_order_witness :
  isProjectable both_capabilities = true
  /\ getProjectorElement both_capabilities = slide_B.
Proof.
  exact (proj1 (getProjectorElement_order both_capabilities)
           (mkDeskriptor slide_B) eq_refl).
Defined.

(** C3, as the specification words it, fails: on an object with both
    capabilities the code takes the slide's element, not the one the
    build-basic-element capability gives. *)
Lemma getProjectorElement_not_spec_order :
  isProjectorElementBuildDeskriptor both_capabilities = true
  /\ resolution_order_spec both_capabilities = slide_C
  /\ getProjectorElement both_capabilities = slide_B
  /\ getProjectorElement both_capabilities <> resolution_order_spec both_capabilities.
Proof.
  repeat split. cbn. discriminate.
Qed.

(** Where an object has at most one of the two capabilities, the two orders
    agree. *)
Lemma getProjectorElement_spec_order_single :
  forall obj,
    isProjectable obj && isProjectorElementBuildDeskriptor obj = false ->
    getProjectorElement obj = resolution_order_spec obj.
Proof.
  intros [[s|] [b|] self]; cbn; intros H; try reflexivity; discriminate.
Qed.

(** ** The calls on the projector object *)

Lemma addElement_run :
  forall e http p,
    addElement e http p
    = mkResult (Resolved tt) (set_elements p (elements p ++ [e])) [].
Proof. reflexivity. Qed.

Lemma removeAllNonStableElements_run :
  forall http p,
    removeAllNonStableElements http p
    = mkResult (Resolved (filter nonStable (elements p)))
        (set_elements p (filter stable (elements p))) [].
Proof. reflexivity. Qed.

Lemma forEach_unshift_preview :
  forall (l : ProjectorElements) http p,
    forEach l unshift_preview http p
    = mkResult (Resolved tt)
        (set_elements_preview p (rev l ++ elements_preview p)) [].
Proof.
  induction l as [|e l IH]; intros http p.
  - destruct p; reflexivity.
  - cbn [forEach]. unfold bind at 1.
    change (unshift_preview e http p)
      with (mkResult (Resolved tt)
              (set_elements_preview p (e :: elements_preview p))
              (@nil Request)).
    cbn [outcome state sent]. rewrite IH. cbn [outcome state sent app].
    destruct p; cbn. rewrite <- app_assoc. reflexivity.
Qed.

(** Within the bounds the guard of [projectPreviewSlide] leaves, [splice]
    deletes exactly one element. *)
Lemma splice1_in_range :
  forall (A : Type) (start : Z) (l : list A),
    l <> [] ->
    (start < Z.of_nat (List.length l))%Z ->
    exists x, fst (splice1 start l) = [x].
Proof.
  intros A start l Hne Hlt. unfold splice1. cbn [fst].
  set (len := Z.of_nat (List.length l)) in *.
  set (n := Z.to_nat (if (start <? 0)%Z then Z.max (len + start) 0 else Z.min start len)).
  assert (Hn : (n < List.length l)%nat).
  { subst n. destruct (Z.ltb_spec start 0).
    - assert (0 < len)%Z by (subst len; destruct l; [congruence | cbn; lia]).
      subst len. lia.
    - subst len. lia. }
  destruct (skipn n l) as [|x rest] eqn:E.
  - apply (f_equal (@List.length A)) in E. rewrite length_skipn in E. cbn in E. lia.
  - exists x. reflexivity.
Qed.

(** Beyond the end of the preview, and on an empty preview,
    [projectPreviewSlide] does nothing at all. *)
Lemma projectPreviewSlide_beyond_end :
  forall (previewIndex : Z) (http : Transport) (p : Projector),
    elements_preview p = []
    \/ (Z.of_nat (List.length (elements_preview p)) <= previewIndex)%Z ->
    projectPreviewSlide previewIndex http p = mkResult (Resolved tt) p [].
Proof.
  intros i http p H. unfold projectPreviewSlide, bind, get; cbn.
  assert (G : ((List.length (elements_preview p) =? 0)%nat
               || (i >=? Z.of_nat (List.length (elements_preview p)))%Z) = true).
  { destruct H as [H|H].
    - rewrite H. reflexivity.
    - apply orb_true_iff. right. apply Z.geb_le. exact H. }
  rewrite G. reflexivity.
Qed.

(** C2, at a negative index. The guard of [projectPreviewSlide] only tests
    the index against the length: at index -1, out of the bounds of a
    preview of one slide, the slide is taken out of the preview and
    projected, and a request is sent. *)
Theorem projectPreviewSlide_negative_index :
  projectPreviewSlide (-1) resolving one_preview_projector
  = mkResult (Resolved tt)
      (mkProjector 3 [slide_B] [] [])
      [mkRequest 3 (mkRequestData (Some [slide_B]) (Some []) None None)].
Proof. reflexivity. Qed.

(** C5, as the code has it. In the scenario [projectPreviewSlide(projector,
    1)] leaves [elements = [A, C]] and [elements_preview = [B]] and sends one
    request, with the new elements and the new preview and without an
    [append_to_history] key. *)
Theorem scenario_projectPreviewSlide :
  forall http : Transport,
    let r := projectPreviewSlide 1 http scenario_projector in
    elements (state r) = [slide_A; slide_C]
    /\ elements_preview (state r) = [slide_B]
    /\ elements_history (state r) = []
    /\ sent r = [scenario_request]
    /\ rq_append_to_history (rq_body scenario_request) = None.
Proof.
  intros http. cbv zeta.
  vm_compute. destruct (http _); repeat split.
Qed.

(** C5, as the specification words it, fails: the request of the scenario
    carries no [append_to_history: []], because an empty list of removed
    elements is left out of the body. *)
Lemma scenario_request_has_no_append_to_history :
  state (projectPreviewSlide 1 resolving scenario_projector)
  = mkProjector 1 [slide_A; slide_C] [slide_B] []
  /\ sent (projectPreviewSlide 1 resolving scenario_projector) = [scenario_request]
  /\ rq_append_to_history (rq_body scenario_request_spec) = Some []
  /\ sent (projectPreviewSlide 1 resolving scenario_projector) <> [scenario_request_spec].
Proof.
  repeat split. cbn. discriminate.
Qed.

(** ** What each method does, whatever the transport answers *)

Lemma await_projectRequest_without_delete :
  forall (els pv app : Projector -> option ProjectorElements) http p,
    (q <- get ;; projectRequest q (els q) (pv q) (app q) None) http p
    = complete http p (Some (requestData (els p) (pv p) (app p) None)).
Proof.
  intros. unfold bind, get. cbn [outcome state sent].
  rewrite projectRequest_without_delete. reflexivity.
Qed.

Lemma await_projectRequest_without_append :
  forall (els pv : Projector -> option ProjectorElements) del http p,
    (q <- get ;; projectRequest q (els q) (pv q) None del) http p
    = complete http p (Some (requestData (els p) (pv p) None del)).
Proof.
  intros. unfold bind, get. cbn [outcome state sent].
  rewrite projectRequest_without_append. reflexivity.
Qed.

(** Sequencing after a call that resolves without sending anything. *)
Lemma bind_resolved :
  forall (A B : Type) (m : Service A) (f : A -> Service B) http p a p',
    m http p = mkResult (Resolved a) p' [] ->
    (x <- m ;; f x) http p = f a http p'.
Proof.
  intros A B m f http p a p' H. unfold bind. rewrite H. cbn.
  destruct (f a http p'); reflexivity.
Qed.

Lemma savePreview_run :
  forall http p,
    savePreview http p
    = complete http p (Some (mkRequestData None (Some (elements_preview p)) None None)).
Proof.
  intros. unfold savePreview.
  apply (await_projectRequest_without_delete
           (fun _ => None) (fun q => Some (elements_preview q)) (fun _ => None)).
Qed.

Lemma addElementToPreview_run :
  forall e http p,
    addElementToPreview e http p
    = complete http
        (set_elements_preview p (elements_preview p ++ [e]))
        (Some (mkRequestData None (Some (elements_preview p ++ [e])) None None)).
Proof.
  intros. unfold addElementToPreview.
  rewrite (bind_resolved _ _ _ _ http p tt
             (set_elements_preview p (elements_preview p ++ [e])))
    by reflexivity.
  apply (await_projectRequest_without_delete
           (fun _ => None) (fun q => Some (elements_preview q)) (fun _ => None)).
Qed.

Lemma projectPreviousSlide_empty_history :
  forall http p,
    elements_history p = [] ->
    projectPreviousSlide http p = mkResult (Resolved tt) p [].
Proof.
  intros http p H. unfold projectPreviousSlide, bind, get; cbn.
  rewrite H. reflexivity.
Qed.

Lemma projectPreviousSlide_run :
  forall http p,
    elements_history p <> [] ->
    let p' :=
      mkProjector (projector_id p)
        (filter stable (elements p) ++ firstn 1 (last (elements_history p) []))
        (rev (filter nonStable (elements p)) ++ elements_preview p)
        (elements_history p) in
    projectPreviousSlide http p
    = complete http p'
        (Some (mkRequestData (Some (elements p')) (Some (elements_preview p'))
                 None (Some true))).
Proof.
  intros http p H p'. unfold projectPreviousSlide.
  rewrite (bind_resolved _ _ _ _ http p p p) by reflexivity.
  destruct (elements_history p) as [|h hs] eqn:Eh; [congruence|].
  cbn [List.length Nat.eqb].
  rewrite (bind_resolved _ _ _ _ http p _ _ (removeAllNonStableElements_run http p)).
  rewrite (bind_resolved _ _ _ _ http _ _ _ (forEach_unshift_preview _ http _)).
  assert (Hadd :
    (match hd_error (last (h :: hs) []) with
     | Some element => addElement element
     | None => ret tt
     end) http
      (set_elements_preview (set_elements p (filter stable (elements p)))
         (rev (filter nonStable (elements p))
          ++ elements_preview (set_elements p (filter stable (elements p)))))
    = mkResult (Resolved tt) p' []).
  { subst p'. destruct (last (h :: hs) []) as [|e es];
      unfold ret, addElement, bind, get, put, set_elements_preview, set_elements;
      cbn; rewrite ?Eh, ?app_nil_r; reflexivity. }
  rewrite (bind_resolved _ _ _ _ http _ _ _ Hadd).
  apply (await_projectRequest_without_append
           (fun q => Some (elements q)) (fun q => Some (elements_preview q))).
Qed.

Lemma projectPreviewSlide_within :
  forall (previewIndex : Z) (p : Projector),
    elements_preview p <> [] ->
    (previewIndex < Z.of_nat (List.length (elements_preview p)))%Z ->
    exists x,
      fst (splice1 previewIndex (elements_preview p)) = [x]
      /\ forall http,
           let p' :=
             mkProjector (projector_id p)
               (filter stable (elements p) ++ [x])
               (snd (splice1 previewIndex (elements_preview p)))
               (elements_history p) in
           projectPreviewSlide previewIndex http p
           = complete http p'
               (Some (requestData (Some (elements p')) (Some (elements_preview p'))
                        (Some (filter nonStable (elements p))) None)).
Proof.
  intros i p Hne Hlt.
  destruct (splice1_in_range _ i (elements_preview p) Hne Hlt) as [x Hx].
  exists x. split; [exact Hx|]. intros http p'.
  unfold projectPreviewSlide.
  rewrite (bind_resolved _ _ _ _ http p p p) by reflexivity.
  assert (G : ((List.length (elements_preview p) =? 0)%nat
               || (i >=? Z.of_nat (List.length (elements_preview p)))%Z) = false).
  { apply orb_false_iff. split.
    - apply Nat.eqb_neq. destruct (elements_preview p); [congruence | discriminate].
    - unfold Z.geb. destruct (Z.compare_spec i (Z.of_nat (List.length (elements_preview p))));
        lia || reflexivity. }
  rewrite G.
  rewrite (bind_resolved _ _ _ _ http p _ _ (removeAllNonStableElements_run http p)).
  assert (Hs : splice_preview i http (set_elements p (filter stable (elements p)))
               = mkResult (Resolved [x])
                   (mkProjector (projector_id p) (filter stable (elements p))
                      (snd (splice1 i (elements_preview p))) (elements_history p))
                   []).
  { unfold splice_preview, bind, get, put, ret, set_elements_preview, set_elements.
    cbn -[splice1]. rewrite Hx. reflexivity. }
  rewrite (bind_resolved _ _ _ _ http _ _ _ Hs).
  rewrite (bind_resolved _ _ _ _ http _ tt p') by reflexivity.
  apply (await_projectRequest_without_delete
           (fun q => Some (elements q)) (fun q => Some (elements_preview q))
           (fun _ => Some (filter nonStable (elements p)))).
Qed.

Lemma projectOn_stable :
  forall obj http p,
    stable (getProjectorElement obj) = true ->
    let p' := set_elements p (elements p ++ [getProjectorElement obj]) in
    projectOn obj http p
    = complete http p' (Some (mkRequestData (Some (elements p')) None None None)).
Proof.
  intros obj http p H p'. unfold projectOn. rewrite H.
  rewrite (bind_resolved _ _ _ _ http p tt p') by reflexivity.
  apply (await_projectRequest_without_delete
           (fun q => Some (elements q)) (fun _ => None) (fun _ => None)).
Qed.

Lemma projectOn_nonStable :
  forall obj http p,
    stable (getProjectorElement obj) = false ->
    let p' :=
      set_elements p (filter stable (elements p) ++ [getProjectorElement obj]) in
    projectOn obj http p
    = complete http p'
        (Some (requestData (Some (elements p')) None
                 (Some (filter nonStable (elements p))) None)).
Proof.
  intros obj http p H p'. unfold projectOn. rewrite H.
  rewrite (bind_resolved _ _ _ _ http p _ _ (removeAllNonStableElements_run http p)).
  rewrite (bind_resolved _ _ _ _ http _ tt p') by (destruct p; reflexivity).
  apply (await_projectRequest_without_delete
           (fun q => Some (elements q)) (fun _ => None)
           (fun _ => Some (filter nonStable (elements p)))).
Qed.

Section MatchingFacts.

Variable identifies : ProjectorElement -> ProjectorElement -> bool.

Lemma removeElements_run :
  forall e http p,
    removeElements identifies e http p
    = mkResult (Resolved (filter (identifies e) (elements p)))
        (set_elements p (filter (fun x => negb (identifies e x)) (elements p))) [].
Proof. reflexivity. Qed.

Lemma removeFrom_run :
  forall obj http p,
    let e := getProjectorElement obj in
    let removed := filter (identifies e) (elements p) in
    let p' := set_elements p (filter (fun x => negb (identifies e x)) (elements p)) in
    removeFrom identifies obj http p
    = complete http p'
        (match removed with
         | [] => None
         | _ :: _ =>
             Some (requestData (Some (elements p')) None
                     (if stable e then None else Some removed) None)
         end).
Proof.
  intros obj http p e removed p'. unfold removeFrom. fold e.
  rewrite (bind_resolved _ _ _ _ http p _ _ (removeElements_run e http p)).
  fold removed. fold p'.
  destruct removed as [|r rs] eqn:Er; [reflexivity|].
  cbn [List.length Nat.ltb Nat.leb].
  destruct (stable e).
  - apply (await_projectRequest_without_delete
             (fun q => Some (elements q)) (fun _ => None) (fun _ => None)).
  - apply (await_projectRequest_without_delete
             (fun q => Some (elements q)) (fun _ => None) (fun _ => Some (r :: rs))).
Qed.

End MatchingFacts.

(** ** Counting non-stable elements *)

Lemma nonStableCount_stable : forall l, nonStableCount (filter stable l) = 0%nat.
Proof.
  induction l as [|e l IH]; [reflexivity|].
  cbn [filter]. destruct (stable e) eqn:E; [|exact IH].
  unfold nonStableCount, nonStable in *. cbn [filter]. rewrite E. exact IH.
Qed.

Lemma nonStableCount_app :
  forall l l', nonStableCount (l ++ l') = (nonStableCount l + nonStableCount l')%nat.
Proof.
  intros. unfold nonStableCount. rewrite filter_app, length_app. reflexivity.
Qed.

Lemma nonStableCount_filter :
  forall f l, (nonStableCount (filter f l) <= nonStableCount l)%nat.
Proof.
  intros f. induction l as [|e l IH]; [apply Nat.le_refl|].
  unfold nonStableCount in *. cbn [filter].
  destruct (f e); cbn [filter]; destruct (nonStable e); cbn [List.length]; lia.
Qed.

Lemma nonStableCount_one : forall l, (nonStableCount (firstn 1 l) <= 1)%nat.
Proof.
  intros [|e l]; unfold nonStableCount; cbn; [lia|].
  destruct (nonStable e); cbn; lia.
Qed.

Lemma nonStableCount_snoc_stable :
  forall l e, stable e = true -> nonStableCount (l ++ [e]) = nonStableCount l.
Proof.
  intros l e E. rewrite nonStableCount_app.
  unfold nonStableCount at 2, nonStable. cbn [filter]. rewrite E. cbn. lia.
Qed.

Lemma rev_short :
  forall (A : Type) (l : list A), (List.length l <= 1)%nat -> rev l = l.
Proof.
  intros A [|a [|b l]] H; try reflexivity. cbn in H. lia.
Qed.

(** ** [projectPreviousSlide] *)

(** C4, as the code has it. On a projector with a history and at most one
    non-stable element shown, [projectPreviousSlide] only reads the last
    history entry and leaves [elements_history] as it is, moves the shown
    non-stable element to the front of [elements_preview], adds the first
    element of the last history entry when there is one, and sends one
    request with the elements, the preview and
    [delete_last_history_element: true]. *)
Theorem projectPreviousSlide_effect_holds :
  forall (http : Transport) (p : Projector),
    elements_history p <> [] ->
    atMostOneNonStable p ->
    projectPreviousSlide_effect p (projectPreviousSlide http p).
Proof.
  intros http p Hh Hone.
  rewrite (projectPreviousSlide_run http p Hh).
  unfold projectPreviousSlide_effect, complete. cbn [state sent].
  cbn [elements_history elements_preview elements projector_id].
  rewrite (rev_short _ (filter nonStable (elements p)) Hone).
  repeat split.
Qed.

Lemma projectPreviousSlide_effect_witness :
  elements_history history_projector <> []
  /\ atMostOneNonStable history_projector
  /\ projectPreviousSlide_effect history_projector
       (projectPreviousSlide resolving history_projector).
Proof.
  assert (Hh : elements_history history_projector <> []) by (cbn; discriminate).
  assert (Hone : atMostOneNonStable history_projector)
    by (unfold atMostOneNonStable; cbn; lia).
  split; [exact Hh|]. split; [exact Hone|].
  exact (projectPreviousSlide_effect_holds resolving history_projector Hh Hone).
Defined.

(** C4, as the specification words it, fails: the last history entry stays
    in [elements_history], and two non-stable elements reach the preview in
    reverse order. *)
Lemma projectPreviousSlide_not_spec :
  elements_history two_slides_projector <> []
  /\ elements_history (state (projectPreviousSlide resolving two_slides_projector))
     = [[slide_A]]
  /\ removelast (elements_history two_slides_projector) = []
  /\ elements_preview (state (projectPreviousSlide resolving two_slides_projector))
     = [slide_C; slide_B]
  /\ ~ projectPreviousSlide_spec two_slides_projector
         (projectPreviousSlide resolving two_slides_projector).
Proof.
  split; [discriminate|]. split; [reflexivity|]. split; [reflexivity|].
  split; [reflexivity|].
  intros [H _]. vm_compute in H. discriminate.
Qed.

(** The order of several non-stable elements is reversed on their way to the
    preview: each is put in front of the ones before it. *)
Lemma projectPreviousSlide_reverses :
  forall http p,
    elements_history p <> [] ->
    elements_preview (state (projectPreviousSlide http p))
    = rev (filter nonStable (elements p)) ++ elements_preview p.
Proof.
  intros http p Hh. rewrite (projectPreviousSlide_run http p Hh). reflexivity.
Qed.

(** ** The operations as a whole *)

Section OperationFacts.

Variable identifies : ProjectorElement -> ProjectorElement -> bool.

(** Every operation brings the projector to a state that does not depend on
    the transport and then sends at most one request, built from that
    state. *)
Lemma perform_complete :
  forall (op : Operation) (p : Projector),
    exists (p' : Projector) (body : option RequestData),
      (forall http, perform identifies op http p = complete http p' body)
      /\ (forall b, body = Some b ->
            carries_state_of p' (mkRequest (projector_id p') b)).
Proof.
  assert (K : forall els pv app del p',
             (els = None \/ els = Some (elements p')) ->
             (pv = None \/ pv = Some (elements_preview p')) ->
             carries_state_of p'
               (mkRequest (projector_id p') (requestData els pv app del))).
  { intros els pv app del p' He Hv. unfold carries_state_of, requestData. cbn.
    split; [reflexivity|]. split.
    - destruct He as [-> | ->]; cbn; auto.
    - destruct Hv as [-> | ->]; cbn; auto. }
  intros op p. destruct op as [obj|obj|i| | |e| ]; cbn [perform].
  - destruct (stable (getProjectorElement obj)) eqn:E.
    + eexists _, _. split.
      * intros http. apply (projectOn_stable obj http p E).
      * intros b [= <-]. apply (K (Some _) None None None); auto.
    + eexists _, _. split.
      * intros http. apply (projectOn_nonStable obj http p E).
      * intros b [= <-]. apply K; auto.
  - eexists _, _. split.
    + intros http. apply (removeFrom_run identifies obj http p).
    + intros b Hb.
      destruct (filter (identifies (getProjectorElement obj)) (elements p));
        [discriminate|].
      injection Hb as <-. apply K; auto.
  - destruct (elements_preview p) as [|x0 xs] eqn:Ep.
    + exists p, None. split; [|discriminate].
      intros http. apply projectPreviewSlide_beyond_end. left. exact Ep.
    + destruct (Z_lt_le_dec i (Z.of_nat (List.length (elements_preview p)))) as [Hlt|Hge].
      * destruct (projectPreviewSlide_within i p) as [x [_ Hrun]];
          [rewrite Ep; discriminate | exact Hlt |].
        eexists _, _. split.
        -- intros http. apply Hrun.
        -- intros b [= <-]. apply K; auto.
      * exists p, None. split; [|discriminate].
        intros http. apply projectPreviewSlide_beyond_end. right. exact Hge.
  - unfold projectNextSlide.
    destruct (elements_preview p) as [|x0 xs] eqn:Ep.
    + exists p, None. split; [|discriminate].
      intros http. apply projectPreviewSlide_beyond_end. left. exact Ep.
    + destruct (projectPreviewSlide_within 0 p) as [x [_ Hrun]];
        [rewrite Ep; discriminate | rewrite Ep; cbn; lia |].
      eexists _, _. split.
      * intros http. apply Hrun.
      * intros b [= <-]. apply K; auto.
  - destruct (elements_history p) as [|h hs] eqn:Eh.
    + exists p, None. split; [|discriminate].
      intros http. apply projectPreviousSlide_empty_history. exact Eh.
    + eexists _, _. split.
      * intros http. apply projectPreviousSlide_run. rewrite Eh. discriminate.
      * intros b [= <-]. apply (K (Some _) (Some _) None (Some true)); auto.
  - eexists _, _. split.
    + intros http. apply addElementToPreview_run.
    + intros b [= <-]. apply (K None (Some _) None None); auto.
  - eexists _, _. split.
    + intros http. apply savePreview_run.
    + intros b [= <-]. apply (K None (Some _) None None); auto.
Qed.

Lemma complete_never_throws :
  forall http p' body, throws (complete http p' body) = false.
Proof.
  intros http p' [b|]; unfold throws, complete, awaited; cbn; [|reflexivity].
  destruct (http _); reflexivity.
Qed.

End OperationFacts.

Section Claims.

Variable identifies : ProjectorElement -> ProjectorElement -> bool.

(** C1. If at most one non-stable element is shown on a projector, then
    after any of projectOn, removeFrom, projectPreviewSlide,
    projectNextSlide, projectPreviousSlide, addElementToPreview and
    savePreview at most one non-stable element is shown, however the request
    ends. *)
Theorem operations_keep_at_most_one_nonStable :
  forall (op : Operation) (http : Transport) (p : Projector),
    atMostOneNonStable p ->
    atMostOneNonStable (state (perform identifies op http p)).
Proof.
  intros op http p Hone. unfold atMostOneNonStable in *.
  assert (Hadd : forall e, (nonStableCount (filter stable (elements p) ++ [e]) <= 1)%nat).
  { intros e. rewrite nonStableCount_app, nonStableCount_stable.
    apply (nonStableCount_one [e]). }
  destruct op as [obj|obj|i| | |e| ]; cbn [perform].
  - destruct (stable (getProjectorElement obj)) eqn:E.
    + rewrite (projectOn_stable obj http p E).
      cbn [complete state set_elements elements].
      rewrite (nonStableCount_snoc_stable _ _ E). exact Hone.
    + rewrite (projectOn_nonStable obj http p E).
      cbn [complete state set_elements elements]. apply Hadd.
  - rewrite (removeFrom_run identifies obj http p).
    replace (elements (state _))
      with (filter (fun x => negb (identifies (getProjectorElement obj) x)) (elements p))
      by (destruct (filter (identifies _) _); reflexivity).
    etransitivity; [apply nonStableCount_filter | exact Hone].
  - destruct (elements_preview p) as [|x0 xs] eqn:Ep.
    + rewrite projectPreviewSlide_beyond_end by (left; exact Ep). exact Hone.
    + destruct (Z_lt_le_dec i (Z.of_nat (List.length (elements_preview p)))) as [Hlt|Hge].
      * destruct (projectPreviewSlide_within i p) as [x [_ Hrun]];
          [rewrite Ep; discriminate | exact Hlt |].
        rewrite Hrun. cbn [complete state elements]. apply Hadd.
      * rewrite projectPreviewSlide_beyond_end by (right; exact Hge). exact Hone.
  - unfold projectNextSlide. destruct (elements_preview p) as [|x0 xs] eqn:Ep.
    + rewrite projectPreviewSlide_beyond_end by (left; exact Ep). exact Hone.
    + destruct (projectPreviewSlide_within 0 p) as [x [_ Hrun]];
        [rewrite Ep; discriminate | rewrite Ep; cbn; lia |].
      rewrite Hrun. cbn [complete state elements]. apply Hadd.
  - destruct (elements_history p) as [|h hs] eqn:Eh.
    + rewrite projectPreviousSlide_empty_history by exact Eh. exact Hone.
    + rewrite projectPreviousSlide_run by (rewrite Eh; discriminate).
      cbn [complete state elements].
      rewrite nonStableCount_app, nonStableCount_stable. apply nonStableCount_one.
  - rewrite addElementToPreview_run. exact Hone.
  - rewrite savePreview_run. exact Hone.
Qed.

(** C8. After [removeFrom(projector, obj)], however its request ends,
    [isProjectedOn(obj, projector)] is false. *)
Theorem removeFrom_then_not_projected :
  forall (obj : ProjectionObject) (http : Transport) (p : Projector),
    isProjectedOn identifies obj (state (removeFrom identifies obj http p)) = false.
Proof.
  intros obj http p. rewrite (removeFrom_run identifies obj http p).
  unfold isProjectedOn, isElementShown.
  replace (elements (state _))
    with (filter (fun x => negb (identifies (getProjectorElement obj) x)) (elements p))
    by (destruct (filter (identifies _) _); reflexivity).
  induction (elements p) as [|x l IH]; [reflexivity|].
  cbn [filter]. destruct (identifies (getProjectorElement obj) x) eqn:E; cbn [negb].
  - exact IH.
  - cbn [existsb]. rewrite E. exact IH.
Qed.

Lemma projectOnMultiple_from_never_throws :
  forall (store : list Projector) (i : nat) (projectors : list nat)
         (element : ProjectorElement) (http : Transport),
    existsb throws (projectOnMultiple_from identifies i store projectors element http)
    = false.
Proof.
  induction store as [|p store IH]; intros i projectors element http; [reflexivity|].
  cbn [projectOnMultiple_from existsb]. rewrite IH, orb_false_r.
  destruct (existsb (Nat.eqb i) projectors).
  - destruct (perform_complete identifies (ProjectOn (element_object element)) p)
      as [p' [body [H _]]].
    cbn [perform] in H. rewrite H. apply complete_never_throws.
  - destruct (isElementShown identifies element p); [|reflexivity].
    destruct (perform_complete identifies (RemoveFrom (element_object element)) p)
      as [p' [body [H _]]].
    cbn [perform] in H. rewrite H. apply complete_never_throws.
Qed.

(** C9. No public operation of the service ends by the throw of the request
    builder: none hands it a non-empty append-to-history list together with
    the delete flag. This holds of the seven operations on one projector
    and of every call [projectOnMultiple] makes. *)
Theorem public_operations_never_throw :
  forall http : Transport,
    (forall (op : Operation) (p : Projector),
       throws (perform identifies op http p) = false)
    /\ (forall (store : list Projector) (projectors : list nat)
               (element : ProjectorElement),
          existsb throws (projectOnMultiple identifies store projectors element http)
          = false).
Proof.
  intros http. split.
  - intros op p.
    destruct (perform_complete identifies op p) as [p' [body [H _]]].
    rewrite H. apply complete_never_throws.
  - intros store projectors element. apply projectOnMultiple_from_never_throws.
Qed.

(** C10. An operation leaves the same projector state and sends the same
    request whether the transport resolves or rejects: nothing is rolled
    back when the request fails. The request it sends is built from the
    state it leaves, so the mutation is complete when the request goes out,
    and the operation ends the way the awaited request does. *)
Theorem operations_mutate_then_request :
  forall (op : Operation) (http : Transport) (p : Projector),
    let r := perform identifies op http p in
    state r = state (perform identifies op resolving p)
    /\ sent r = sent (perform identifies op resolving p)
    /\ Forall (carries_state_of (state r)) (sent r)
    /\ Forall (fun rq => outcome r = awaited http rq) (sent r).
Proof.
  intros op http p. cbv zeta.
  destruct (perform_complete identifies op p) as [p' [body [H Hb]]].
  rewrite (H http), (H resolving).
  destruct body as [b|]; cbn.
  - repeat split.
    + constructor; [|constructor]. apply Hb. reflexivity.
    + constructor; [|constructor]. reflexivity.
  - repeat split; constructor.
Qed.

End Claims.

Lemma operations_keep_at_most_one_nonStable_witness :
  atMostOneNonStable history_projector
  /\ atMostOneNonStable
       (state (perform same_name_and_id (ProjectOn (element_object slide_B))
                 (rejecting "offline") history_projector)).
Proof.
  assert (Hone : atMostOneNonStable history_projector)
    by (unfold atMostOneNonStable; cbn; lia).
  split; [exact Hone|].
  exact (operations_keep_at_most_one_nonStable same_name_and_id
           (ProjectOn (element_object slide_B)) (rejecting "offline")
           history_projector Hone).
Defined.

(** A rejected request leaves the projector as [projectOn] changed it. *)
Example projectOn_rejected :
  projectOn (element_object slide_B) (rejecting "offline") history_projector
  = mkResult (Rejected "offline")
      (mkProjector 7 [slide_A; slide_B] [slide_B] [[]; [slide_B]])
      [mkRequest 7
         (mkRequestData (Some [slide_A; slide_B]) None (Some [slide_C]) None)].
Proof. reflexivity. Qed.

(** ** The login mask *)

(** C7, as the code has it. With a user name of 129 characters the form is
    invalid: its [maxLength(128)] validator reports an error. [formLogin]
    does not consult the validity of the form: it shows the spinner and
    calls [authService.login] with the user name and the password of the
    form. *)
Theorem formLogin_long_username :
  forall (instant : string -> string)
         (login : string -> string -> bool * option string)
         (u p : string),
    String.length u = 129%nat ->
    LoginMask.control_errors (LoginMask.username (LoginMask.loginForm (typed u p)))
    = [LoginMask.maxlength]
    /\ LoginMask.valid (LoginMask.loginForm (typed u p)) = false
    /\ firstn 2 (snd (LoginMask.formLogin instant login (typed u p)))
       = [LoginMask.ShowSpinner (instant LoginMask.loginMessage) true;
          LoginMask.AuthLogin u p].
Proof.
  intros instant login u p Hu.
  assert (He : LoginMask.control_errors
                 (LoginMask.username (LoginMask.loginForm (typed u p)))
               = [LoginMask.maxlength]).
  { unfold LoginMask.control_errors, typed, LoginMask.fill, LoginMask.createForm,
      LoginMask.Validators_required, LoginMask.Validators_maxLength.
    cbn -[Nat.ltb Nat.eqb]. rewrite Hu. reflexivity. }
  split; [exact He|]. split.
  - unfold LoginMask.valid. rewrite He. reflexivity.
  - unfold LoginMask.formLogin. cbn [typed LoginMask.loginForm LoginMask.username
      LoginMask.password LoginMask.value LoginMask.fill LoginMask.operatorSubscription].
    destruct (login u p) as [called_back [e|]];
      destruct called_back; reflexivity.
Qed.

Lemma formLogin_long_username_witness :
  String.length long_username = 129%nat
  /\ LoginMask.control_errors
       (LoginMask.username (LoginMask.loginForm (typed long_username "secret")))
     = [LoginMask.maxlength]
  /\ LoginMask.valid (LoginMask.loginForm (typed long_username "secret")) = false
  /\ firstn 2 (snd (LoginMask.formLogin (fun s => s) accepting
                      (typed long_username "secret")))
     = [LoginMask.ShowSpinner LoginMask.loginMessage true;
        LoginMask.AuthLogin long_username "secret"].
Proof.
  assert (Hu : String.length long_username = 129%nat) by (vm_compute; reflexivity).
  split; [exact Hu|].
  exact (formLogin_long_username (fun s => s) accepting long_username "secret" Hu).
Defined.

(** C7, as the specification words it, fails: on a submit with a user name
    of 129 characters the form is invalid, and [formLogin] calls
    [authService.login] all the same. *)
Lemma long_username_reaches_login :
  String.length long_username = 129%nat
  /\ LoginMask.valid (LoginMask.loginForm (typed long_username "secret")) = false
  /\ snd (LoginMask.formLogin (fun s => s) accepting (typed long_username "secret"))
     = [LoginMask.ShowSpinner LoginMask.loginMessage true;
        LoginMask.AuthLogin long_username "secret"]
  /\ existsb LoginMask.is_AuthLogin
       (snd (LoginMask.formLogin (fun s => s) accepting (typed long_username "secret")))
     = true.
Proof.
  repeat split.
Qed.

(** A form filled within the limits is valid, and a rejected login marks it
    with [notFound] and keeps the error message. *)
Example formLogin_rejected :
  LoginMask.valid (LoginMask.loginForm (typed "admin" "secret")) = true
  /\ LoginMask.formLogin (fun s => s) (fun _ _ => (true, Some "wrong"))
       (typed "admin" "secret")
     = (LoginMask.mkComponent
          (LoginMask.setErrors_notFound (LoginMask.fill LoginMask.createForm "admin" "secret"))
          "wrong" false,
        [LoginMask.ShowSpinner LoginMask.loginMessage true;
         LoginMask.AuthLogin "admin" "secret";
         LoginMask.HideSpinner]).
Proof. split; reflexivity. Qed.

(** * Further properties of the projector service *)

Lemma set_elements_same : forall p, mkProjector (projector_id p) (elements p)
                                      (elements_preview p) (elements_history p) = p.
Proof. intros []; reflexivity. Qed.

Lemma filter_twice :
  forall (A : Type) (f : A -> bool) (l : list A), filter f (filter f l) = filter f l.
Proof.
  intros A f. induction l as [|a l IH]; [reflexivity|].
  cbn [filter]. destruct (f a) eqn:E; [|exact IH].
  cbn [filter]. rewrite E, IH. reflexivity.
Qed.

Lemma filter_none_of_rest :
  forall (A : Type) (f : A -> bool) (l : list A),
    filter f (filter (fun x => negb (f x)) l) = [].
Proof.
  intros A f. induction l as [|a l IH]; [reflexivity|].
  cbn [filter]. destruct (f a) eqn:E; cbn [negb]; [exact IH|].
  cbn [filter]. rewrite E. exact IH.
Qed.

Lemma filter_nothing_matches :
  forall (A : Type) (f : A -> bool) (l : list A),
    existsb f l = false -> filter (fun x => negb (f x)) l = l /\ filter f l = [].
Proof.
  intros A f. induction l as [|a l IH]; intros H; [split; reflexivity|].
  cbn [existsb] in H. apply orb_false_iff in H. destruct H as [Ha Hl].
  cbn [filter]. rewrite Ha. cbn [negb]. destruct (IH Hl) as [-> ->].
  split; reflexivity.
Qed.

Lemma filter_something_matches :
  forall (A : Type) (f : A -> bool) (l : list A),
    existsb f l = true -> filter f l <> [].
Proof.
  intros A f. induction l as [|a l IH]; intros H; [discriminate|].
  cbn [existsb] in H. cbn [filter]. destruct (f a); [discriminate|].
  apply IH. exact H.
Qed.

Lemma nonStable_of_stable : forall l, filter nonStable (filter stable l) = [].
Proof.
  induction l as [|e l IH]; [reflexivity|].
  cbn [filter]. destruct (stable e) eqn:E; [|exact IH].
  cbn [filter]. unfold nonStable at 1. rewrite E. exact IH.
Qed.

Lemma stable_of_nonStable : forall l, filter stable (filter nonStable l) = [].
Proof.
  induction l as [|e l IH]; [reflexivity|].
  cbn [filter]. unfold nonStable at 1. destruct (stable e) eqn:E; cbn [negb]; [exact IH|].
  cbn [filter]. rewrite E. exact IH.
Qed.

(** The place [splice(start, 1)] deletes at, for a [start] below the
    length of a non-empty array. *)
Lemma splice1_length :
  forall (A : Type) (start : Z) (l : list A),
    l <> [] ->
    (start < Z.of_nat (List.length l))%Z ->
    S (List.length (snd (splice1 start l))) = List.length l.
Proof.
  intros A start l Hne Hlt. unfold splice1. cbn [snd].
  set (len := Z.of_nat (List.length l)) in *.
  set (n := Z.to_nat (if (start <? 0)%Z then Z.max (len + start) 0 else Z.min start len)).
  assert (Hn : (n < List.length l)%nat).
  { subst n. destruct (Z.ltb_spec start 0).
    - assert (0 < len)%Z by (subst len; destruct l; [congruence | cbn; lia]).
      subst len. lia.
    - subst len. lia. }
  rewrite length_app, length_firstn, length_skipn. lia.
Qed.

Lemma splice1_at :
  forall (A : Type) (i : nat) (l : list A) (x : A),
    nth_error l i = Some x ->
    splice1 (Z.of_nat i) l = ([x], firstn i l ++ skipn (S i) l).
Proof.
  intros A i l x H. unfold splice1.
  assert (Hi : (i < List.length l)%nat) by (apply nth_error_Some; congruence).
  destruct (Z.ltb_spec (Z.of_nat i) 0); [lia|].
  rewrite Z.min_l by lia. rewrite Nat2Z.id.
  destruct (nth_error_split l i H) as [l1 [l2 [-> Hl1]]].
  subst i. rewrite skipn_app, skipn_all, Nat.sub_diag. reflexivity.
Qed.

(** X1. Projecting a stable element appends it and touches nothing else:
    the elements shown before stay in place, the preview and the history
    are left alone, and exactly one request goes out, carrying the new
    elements only. *)
Theorem projectOn_stable_appends :
  forall (obj : ProjectionObject) (http : Transport) (p : Projector),
    stable (getProjectorElement obj) = true ->
    let r := projectOn obj http p in
    elements (state r) = elements p ++ [getProjectorElement obj]
    /\ elements_preview (state r) = elements_preview p
    /\ elements_history (state r) = elements_history p
    /\ sent r
       = [mkRequest (projector_id p)
            (mkRequestData (Some (elements p ++ [getProjectorElement obj]))
               None None None)].
Proof.
  intros obj http p E. cbv zeta. rewrite (projectOn_stable obj http p E).
  repeat split.
Qed.

Lemma projectOn_stable_appends_witness :
  stable (getProjectorElement (element_object slide_A)) = true
  /\ elements (state (projectOn (element_object slide_A) resolving scenario_projector))
     = [slide_A; slide_A].
Proof.
  assert (E : stable (getProjectorElement (element_object slide_A)) = true)
    by reflexivity.
  split; [exact E|].
  exact (proj1 (projectOn_stable_appends (element_object slide_A) resolving
                  scenario_projector E)).
Defined.

(** X2. Projecting a non-stable element leaves it as the only non-stable
    element shown and keeps every stable element in place; the non-stable
    elements shown before go, in their order, into the request's
    [append_to_history], which is left out when there were none. *)
Theorem projectOn_nonStable_replaces :
  forall (obj : ProjectionObject) (http : Transport) (p : Projector),
    stable (getProjectorElement obj) = false ->
    let r := projectOn obj http p in
    filter nonStable (elements (state r)) = [getProjectorElement obj]
    /\ filter stable (elements (state r)) = filter stable (elements p)
    /\ elements (state r) = filter stable (elements p) ++ [getProjectorElement obj]
    /\ map (fun rq => rq_append_to_history (rq_body rq)) (sent r)
       = [match filter nonStable (elements p) with
          | [] => None
          | removed => Some removed
          end].
Proof.
  intros obj http p E. cbv zeta. rewrite (projectOn_nonStable obj http p E).
  cbn [complete state sent elements set_elements map rq_body].
  rewrite !filter_app, nonStable_of_stable, filter_twice.
  cbn [filter]. unfold nonStable at 1. rewrite E. cbn [negb app].
  rewrite app_nil_r. repeat split.
  unfold requestData. cbn [rq_append_to_history].
  destruct (filter nonStable (elements p)); reflexivity.
Qed.

Lemma projectOn_nonStable_replaces_witness :
  stable (getProjectorElement both_capabilities) = false
  /\ filter nonStable
       (elements (state (projectOn both_capabilities resolving history_projector)))
     = [slide_B].
Proof.
  assert (E : stable (getProjectorElement both_capabilities) = false) by reflexivity.
  split; [exact E|].
  exact (proj1 (projectOn_nonStable_replaces both_capabilities resolving
                  history_projector E)).
Defined.

Section FurtherFacts.

Variable identifies : ProjectorElement -> ProjectorElement -> bool.

(** X3. [removeFrom] is idempotent: a second [removeFrom] of the same object
    finds nothing to remove, leaves the projector as the first call left it
    and sends no request. *)
Theorem removeFrom_twice :
  forall (obj : ProjectionObject) (http http' : Transport) (p : Projector),
    let r1 := removeFrom identifies obj http p in
    let r2 := removeFrom identifies obj http' (state r1) in
    state r2 = state r1 /\ sent r2 = [] /\ outcome r2 = Resolved tt.
Proof.
  intros obj http http' p. cbv zeta.
  rewrite (removeFrom_run identifies obj http' _).
  rewrite (removeFrom_run identifies obj http p).
  set (e := getProjectorElement obj).
  assert (S1 : forall body,
             state (complete http
                      (set_elements p
                         (filter (fun x => negb (identifies e x)) (elements p)))
                      body)
             = set_elements p (filter (fun x => negb (identifies e x)) (elements p)))
    by (intros [b|]; reflexivity).
  rewrite !S1. cbn [set_elements elements].
  rewrite filter_none_of_rest, filter_twice. repeat split.
Qed.

(** X4. [removeFrom] sends a request exactly when the object was projected
    on the projector; when it was not, the projector stays as it was. *)
Theorem removeFrom_sends_iff_projected :
  forall (obj : ProjectionObject) (http : Transport) (p : Projector),
    let r := removeFrom identifies obj http p in
    List.length (sent r) = (if isProjectedOn identifies obj p then 1%nat else 0%nat)
    /\ (if isProjectedOn identifies obj p then True else r = mkResult (Resolved tt) p []).
Proof.
  intros obj http p. cbv zeta.
  rewrite (removeFrom_run identifies obj http p).
  unfold isProjectedOn, isElementShown.
  set (e := getProjectorElement obj).
  destruct (existsb (identifies e) (elements p)) eqn:E.
  - split; [|exact I].
    pose proof (filter_something_matches _ _ _ E) as Hne.
    destruct (filter (identifies e) (elements p)); [congruence | reflexivity].
  - destruct (filter_nothing_matches _ _ _ E) as [-> ->].
    cbn [complete sent List.length]. unfold set_elements.
    rewrite set_elements_same. split; reflexivity.
Qed.

(** What every operation leaves alone, and the shape of what it sends. *)
Lemma perform_frame :
  forall (op : Operation) (p : Projector),
    exists (els' pv' : ProjectorElements) (body : option RequestData),
      (forall http,
         perform identifies op http p
         = complete http
             (mkProjector (projector_id p) els' pv' (elements_history p)) body)
      /\ (is_RemoveFrom op = false ->
          exists extra, filter stable els' = filter stable (elements p) ++ extra)
      /\ (forall b, body = Some b -> body_in_shape b = true).
Proof.
  intros op p.
  assert (K : forall els pv app,
             body_in_shape (requestData els pv app None) = true).
  { intros els pv [[|a l]|]; reflexivity. }
  assert (Same : forall http, mkResult (Resolved tt) p []
                   = complete http
                       (mkProjector (projector_id p) (elements p)
                          (elements_preview p) (elements_history p)) None).
  { intros http. cbn [complete]. rewrite set_elements_same. reflexivity. }
  assert (Keep : exists extra,
             filter stable (elements p) = filter stable (elements p) ++ extra).
  { exists []. rewrite app_nil_r. reflexivity. }
  assert (Add : forall l, exists extra,
             filter stable (filter stable (elements p) ++ l)
             = filter stable (elements p) ++ extra).
  { intros l. exists (filter stable l). rewrite filter_app, filter_twice. reflexivity. }
  assert (Preview : forall i, exists els' pv' body,
             (forall http,
                projectPreviewSlide i http p
                = complete http
                    (mkProjector (projector_id p) els' pv' (elements_history p)) body)
             /\ (false = false ->
                 exists extra, filter stable els' = filter stable (elements p) ++ extra)
             /\ (forall b, body = Some b -> body_in_shape b = true)).
  { intros i.
    assert (D : elements_preview p = [] \/ elements_preview p <> [])
      by (destruct (elements_preview p); [left; reflexivity | right; discriminate]).
    destruct D as [Ep|Ep].
    - exists (elements p), (elements_preview p), None. split; [|split].
      + intros http. rewrite <- Same. apply projectPreviewSlide_beyond_end.
        left. exact Ep.
      + intros _. exact Keep.
      + discriminate.
    - destruct (Z_lt_le_dec i (Z.of_nat (List.length (elements_preview p))))
        as [Hlt|Hge].
      + destruct (projectPreviewSlide_within i p Ep Hlt) as [x [_ Hrun]].
        eexists _, _, _. split; [|split].
        * intros http. apply Hrun.
        * intros _. apply Add.
        * intros b [= <-]. apply K.
      + exists (elements p), (elements_preview p), None. split; [|split].
        * intros http. rewrite <- Same. apply projectPreviewSlide_beyond_end.
          right. exact Hge.
        * intros _. exact Keep.
        * discriminate. }
  destruct op as [obj|obj|i| | |e| ]; cbn [perform is_RemoveFrom].
  - destruct (stable (getProjectorElement obj)) eqn:E.
    + eexists _, _, _. split; [|split].
      * intros http. apply (projectOn_stable obj http p E).
      * intros _. exists [getProjectorElement obj].
        cbn [set_elements elements]. rewrite filter_app. cbn [filter].
        rewrite E. reflexivity.
      * intros b [= <-]. reflexivity.
    + eexists _, _, _. split; [|split].
      * intros http. apply (projectOn_nonStable obj http p E).
      * intros _. apply Add.
      * intros b [= <-]. apply K.
  - eexists _, _, _. split; [|split].
    + intros http. apply (removeFrom_run identifies obj http p).
    + discriminate.
    + intros b Hb.
      destruct (filter (identifies (getProjectorElement obj)) (elements p));
        [discriminate|].
      injection Hb as <-. apply K.
  - apply Preview.
  - apply Preview.
  - assert (D : elements_history p = [] \/ elements_history p <> [])
      by (destruct (elements_history p); [left; reflexivity | right; discriminate]).
    destruct D as [Eh|Eh].
    + exists (elements p), (elements_preview p), None. split; [|split].
      * intros http. rewrite <- Same.
        apply projectPreviousSlide_empty_history. exact Eh.
      * intros _. exact Keep.
      * discriminate.
    + eexists _, _, _. split; [|split].
      * intros http. apply projectPreviousSlide_run. exact Eh.
      * intros _. apply Add.
      * intros b [= <-]. reflexivity.
  - eexists _, _, _. split; [|split].
    + intros http. apply addElementToPreview_run.
    + intros _. exact Keep.
    + intros b [= <-]. reflexivity.
  - exists (elements p), (elements_preview p), (Some (mkRequestData None (Some (elements_preview p)) None None)).
    split; [|split].
    + intros http. rewrite set_elements_same. apply savePreview_run.
    + intros _. exact Keep.
    + intros b [= <-]. reflexivity.
Qed.

(** X5. No operation touches the projector's [id] or its local
    [elements_history]: the history is only ever changed by the server, on
    the request's [append_to_history] and [delete_last_history_element]. *)
Theorem operations_leave_history_alone :
  forall (op : Operation) (http : Transport) (p : Projector),
    elements_history (state (perform identifies op http p)) = elements_history p
    /\ projector_id (state (perform identifies op http p)) = projector_id p.
Proof.
  intros op http p.
  destruct (perform_frame op p) as [els' [pv' [body [H _]]]].
  rewrite H. destruct body; split; reflexivity.
Qed.

(** X6. Only [removeFrom] takes a stable element off a projector: after any
    other operation the stable elements shown before are still shown, in
    their order and ahead of any stable element the operation added. *)
Theorem stable_elements_persist :
  forall (op : Operation) (http : Transport) (p : Projector),
    is_RemoveFrom op = false ->
    exists extra,
      filter stable (elements (state (perform identifies op http p)))
      = filter stable (elements p) ++ extra.
Proof.
  intros op http p Hop.
  destruct (perform_frame op p) as [els' [pv' [body [H [Hst _]]]]].
  rewrite H. destruct (Hst Hop) as [extra Hextra].
  exists extra. destruct body; exact Hextra.
Qed.

(** X7. An operation sends at most one request, to the endpoint of its own
    projector, and the body is in shape: an [append_to_history] it carries
    is not empty, a [delete_last_history_element] it carries is [true], and
    it never carries both. *)
Theorem requests_in_shape :
  forall (op : Operation) (http : Transport) (p : Projector),
    let r := perform identifies op http p in
    (List.length (sent r) <= 1)%nat
    /\ forallb
         (fun rq => Z.eqb (rq_projector rq) (projector_id p)
                    && body_in_shape (rq_body rq))
         (sent r) = true.
Proof.
  intros op http p. cbv zeta.
  destruct (perform_frame op p) as [els' [pv' [body [H [_ Hb]]]]].
  rewrite H. destruct body as [b|]; cbn.
  - split; [lia|]. rewrite Z.eqb_refl, (Hb b eq_refl). reflexivity.
  - split; [lia | reflexivity].
Qed.

End FurtherFacts.

Lemma stable_elements_persist_witness :
  is_RemoveFrom ProjectPreviousSlide = false
  /\ exists extra,
       filter stable
         (elements (state (perform same_name_and_id ProjectPreviousSlide
                             (rejecting "offline") history_projector)))
       = filter stable (elements history_projector) ++ extra.
Proof.
  split; [reflexivity|].
  exact (stable_elements_persist same_name_and_id ProjectPreviousSlide
           (rejecting "offline") history_projector eq_refl).
Defined.

(** ** Moving through the preview and the history *)

(** X8. A call of [projectPreviewSlide] does nothing exactly when the
    preview is empty or the index is at or beyond its length; any other
    index, a negative one included, takes one slide out of the preview and
    sends one request. *)
Theorem projectPreviewSlide_noop_iff :
  forall (previewIndex : Z) (http : Transport) (p : Projector),
    let r := projectPreviewSlide previewIndex http p in
    let len := List.length (elements_preview p) in
    let guard := (len =? 0)%nat || (Z.of_nat len <=? previewIndex)%Z in
    List.length (sent r) = (if guard then 0%nat else 1%nat)
    /\ List.length (elements_preview (state r))
       = (if guard then len else (len - 1)%nat)
    /\ (if guard then r = mkResult (Resolved tt) p [] else True).
Proof.
  intros i http p. cbv zeta.
  destruct ((List.length (elements_preview p) =? 0)%nat
            || (Z.of_nat (List.length (elements_preview p)) <=? i)%Z) eqn:G.
  - assert (H : elements_preview p = []
                \/ (Z.of_nat (List.length (elements_preview p)) <= i)%Z).
    { apply orb_true_iff in G. destruct G as [G|G].
      - left. apply Nat.eqb_eq in G. destruct (elements_preview p);
          [reflexivity | discriminate].
      - right. apply Z.leb_le. exact G. }
    rewrite (projectPreviewSlide_beyond_end i http p H). repeat split.
  - apply orb_false_iff in G. destruct G as [G1 G2].
    apply Nat.eqb_neq in G1. apply Z.leb_gt in G2.
    assert (Hne : elements_preview p <> [])
      by (intros E; rewrite E in G1; apply G1; reflexivity).
    destruct (projectPreviewSlide_within i p Hne G2) as [x [_ Hrun]].
    rewrite Hrun. cbn [complete sent state elements_preview List.length].
    pose proof (splice1_length _ i (elements_preview p) Hne G2) as Hl.
    repeat split. lia.
Qed.

(** X9. Within the preview, [projectPreviewSlide] projects the slide at the
    index: that slide follows the stable elements, the preview loses that
    position and keeps the order of the rest, and the non-stable elements
    shown before are what the request appends to the history. *)
Theorem projectPreviewSlide_at :
  forall (i : nat) (x : ProjectorElement) (http : Transport) (p : Projector),
    nth_error (elements_preview p) i = Some x ->
    let r := projectPreviewSlide (Z.of_nat i) http p in
    elements (state r) = filter stable (elements p) ++ [x]
    /\ elements_preview (state r)
       = firstn i (elements_preview p) ++ skipn (S i) (elements_preview p)
    /\ sent r
       = [mkRequest (projector_id p)
            (requestData (Some (filter stable (elements p) ++ [x]))
               (Some (firstn i (elements_preview p) ++ skipn (S i) (elements_preview p)))
               (Some (filter nonStable (elements p))) None)].
Proof.
  intros i x http p Hx. cbv zeta.
  assert (Hi : (i < List.length (elements_preview p))%nat)
    by (apply nth_error_Some; congruence).
  assert (Hne : elements_preview p <> [])
    by (intros E; rewrite E in Hi; cbn in Hi; lia).
  destruct (projectPreviewSlide_within (Z.of_nat i) p Hne ltac:(lia)) as [y [Hy Hrun]].
  rewrite Hrun. rewrite (splice1_at _ i _ x Hx) in *. cbn [fst snd] in *.
  injection Hy as <-. repeat split.
Qed.

Lemma projectPreviewSlide_at_witness :
  nth_error (elements_preview scenario_projector) 1 = Some slide_C
  /\ elements (state (projectPreviewSlide (Z.of_nat 1) resolving scenario_projector))
     = filter stable (elements scenario_projector) ++ [slide_C].
Proof.
  assert (H : nth_error (elements_preview scenario_projector) 1 = Some slide_C)
    by reflexivity.
  split; [exact H|].
  exact (proj1 (projectPreviewSlide_at 1 slide_C resolving scenario_projector H)).
Defined.

(** X10. An element appended to the preview and then projected from the
    position it was appended at ends up shown after the stable elements,
    and the preview is back to what it was. *)
Theorem addElementToPreview_then_project :
  forall (e : ProjectorElement) (http http' : Transport) (p : Projector),
    let r1 := addElementToPreview e http p in
    let r2 := projectPreviewSlide
                (Z.of_nat (List.length (elements_preview p))) http' (state r1) in
    elements (state r2) = filter stable (elements p) ++ [e]
    /\ elements_preview (state r2) = elements_preview p.
Proof.
  intros e http http' p. cbv zeta. rewrite addElementToPreview_run.
  cbn [complete state].
  set (p1 := set_elements_preview p (elements_preview p ++ [e])).
  assert (Hx : nth_error (elements_preview p1) (List.length (elements_preview p))
               = Some e).
  { subst p1. cbn [set_elements_preview elements_preview].
    rewrite nth_error_app2 by lia. rewrite Nat.sub_diag. reflexivity. }
  destruct (projectPreviewSlide_at _ e http' p1 Hx) as [He [Hp _]].
  split.
  - exact He.
  - rewrite Hp. subst p1. cbn [set_elements_preview elements_preview].
    rewrite firstn_app, Nat.sub_diag, firstn_all. cbn [firstn].
    rewrite skipn_all2 by (rewrite length_app; cbn; lia).
    rewrite !app_nil_r. reflexivity.
Qed.

(** X11. With one non-stable element shown and a history to go back to,
    [projectPreviousSlide] followed by [projectNextSlide] shows that
    non-stable element again and restores the preview; the stable elements
    shown before are all still shown. *)
Theorem previous_then_next_restores :
  forall (n : ProjectorElement) (http http' : Transport) (p : Projector),
    elements_history p <> [] ->
    filter nonStable (elements p) = [n] ->
    let r1 := projectPreviousSlide http p in
    let r2 := projectNextSlide http' (state r1) in
    filter nonStable (elements (state r2)) = [n]
    /\ elements_preview (state r2) = elements_preview p
    /\ elements_history (state r2) = elements_history p
    /\ exists extra,
         filter stable (elements (state r2)) = filter stable (elements p) ++ extra.
Proof.
  intros n http http' p Hh Hn. cbv zeta.
  rewrite (projectPreviousSlide_run http p Hh). cbn [complete state].
  rewrite Hn. cbn [rev app].
  set (p1 := mkProjector (projector_id p)
               (filter stable (elements p) ++ firstn 1 (last (elements_history p) []))
               (n :: elements_preview p) (elements_history p)).
  assert (Hx : nth_error (elements_preview p1) 0 = Some n) by reflexivity.
  unfold projectNextSlide.
  destruct (projectPreviewSlide_at 0 n http' p1 Hx) as [He [Hp _]].
  change (Z.of_nat 0) with 0%Z in *.
  assert (Hns : nonStable n = true).
  { assert (In n (filter nonStable (elements p))) by (rewrite Hn; left; reflexivity).
    apply filter_In in H. apply H. }
  split; [|split; [|split]].
  - rewrite He. rewrite filter_app, nonStable_of_stable. cbn [filter app].
    rewrite Hns. reflexivity.
  - rewrite Hp. reflexivity.
  - destruct (perform_frame (fun _ _ => false) ProjectNextSlide p1)
      as [els' [pv' [body [H _]]]].
    cbn [perform] in H. unfold projectNextSlide in H. rewrite H.
    destruct body; reflexivity.
  - rewrite He. subst p1. cbn [elements].
    rewrite !filter_app, !filter_twice. cbn [filter].
    unfold nonStable in Hns. apply negb_true_iff in Hns. rewrite Hns.
    rewrite app_nil_r. eexists. reflexivity.
Qed.

Lemma previous_then_next_restores_witness :
  elements_history history_projector <> []
  /\ filter nonStable (elements history_projector) = [slide_C]
  /\ filter nonStable
       (elements (state (projectNextSlide resolving
                           (state (projectPreviousSlide resolving history_projector)))))
     = [slide_C].
Proof.
  assert (Hh : elements_history history_projector <> []) by (cbn; discriminate).
  assert (Hn : filter nonStable (elements history_projector) = [slide_C])
    by reflexivity.
  split; [exact Hh|]. split; [exact Hn|].
  exact (proj1 (previous_then_next_restores slide_C resolving resolving
                  history_projector Hh Hn)).
Defined.

(** ** The data store *)

Section StoreFacts.

Variable identifies : ProjectorElement -> ProjectorElement -> bool.

Lemma existsb_filter_rest :
  forall (A : Type) (f : A -> bool) (l : list A),
    existsb f (filter (fun x => negb (f x)) l) = false.
Proof.
  intros A f. induction l as [|a l IH]; [reflexivity|].
  cbn [filter]. destruct (f a) eqn:E; cbn [negb]; [exact IH|].
  cbn [existsb]. rewrite E. exact IH.
Qed.

(** X12. The three queries agree: [getProjectorsWhichAreProjecting] returns
    the projectors of the store on which [isProjectedOn] holds, and
    [isProjected] holds exactly when there is one. *)
Theorem store_queries_agree :
  forall (store : list Projector) (obj : ProjectionObject),
    (forall p, In p (getProjectorsWhichAreProjecting identifies store obj)
               <-> In p store /\ isProjectedOn identifies obj p = true)
    /\ (isProjected identifies store obj = true
        <-> exists p, In p store /\ isProjectedOn identifies obj p = true)
    /\ isProjected identifies store obj
       = negb (List.length (getProjectorsWhichAreProjecting identifies store obj) =? 0)%nat.
Proof.
  intros store obj. unfold getProjectorsWhichAreProjecting, isProjected, isProjectedOn.
  split; [|split].
  - intros p. apply filter_In.
  - apply existsb_exists.
  - induction store as [|q store IH]; [reflexivity|].
    cbn [existsb filter].
    destruct (isElementShown identifies (getProjectorElement obj) q);
      [reflexivity | exact IH].
Qed.

Lemma projectOn_shown :
  forall element http p,
    identifies element element = true ->
    isElementShown identifies element
      (state (projectOn (element_object element) http p)) = true.
Proof.
  intros element http p Hrefl. unfold isElementShown.
  destruct (stable (getProjectorElement (element_object element))) eqn:E.
  - rewrite (projectOn_stable _ http p E). cbn [complete state set_elements elements].
    rewrite existsb_app. cbn. rewrite Hrefl. apply orb_true_r.
  - rewrite (projectOn_nonStable _ http p E). cbn [complete state set_elements elements].
    rewrite existsb_app. cbn. rewrite Hrefl. apply orb_true_r.
Qed.

Lemma removeFrom_not_shown :
  forall element http p,
    isElementShown identifies element
      (state (removeFrom identifies (element_object element) http p)) = false.
Proof.
  intros element http p. rewrite (removeFrom_run identifies _ http p).
  unfold isElementShown.
  replace (elements (state _))
    with (filter (fun x => negb (identifies element x)) (elements p))
    by (destruct (filter (identifies _) _); reflexivity).
  apply existsb_filter_rest.
Qed.

Lemma projectOnMultiple_from_at :
  forall (store : list Projector) (k i : nat) (projectors : list nat)
         (element : ProjectorElement) (http : Transport) (r : Result unit),
    nth_error (projectOnMultiple_from identifies k store projectors element http) i
    = Some r ->
    exists p,
      nth_error store i = Some p
      /\ r = (if existsb (Nat.eqb (k + i)) projectors
              then projectOn (element_object element) http p
              else if isElementShown identifies element p
              then removeFrom identifies (element_object element) http p
              else ret tt http p).
Proof.
  induction store as [|q store IH]; intros k i projectors element http r H.
  - destruct i; discriminate.
  - destruct i as [|i]; cbn [projectOnMultiple_from nth_error] in H.
    + exists q. split; [reflexivity|]. rewrite Nat.add_0_r. congruence.
    + destruct (IH (S k) i projectors element http r H) as [p [Hp Hr]].
      exists p. split; [exact Hp|]. rewrite Nat.add_succ_r. exact Hr.
Qed.

(** X13. After [projectOnMultiple(projectors, element)], for an element that
    identifies itself, each projector of the store shows the element exactly
    when it is one of the given projectors, whatever the transport answered
    to the requests. *)
Theorem projectOnMultiple_shown_exactly_on :
  forall (store : list Projector) (projectors : list nat)
         (element : ProjectorElement) (http : Transport)
         (i : nat) (p' : Projector),
    identifies element element = true ->
    nth_error
      (store_after (projectOnMultiple identifies store projectors element http)) i
    = Some p' ->
    isElementShown identifies element p' = existsb (Nat.eqb i) projectors.
Proof.
  intros store projectors element http i p' Hrefl H.
  unfold store_after in H. rewrite nth_error_map in H.
  destruct (nth_error (projectOnMultiple identifies store projectors element http) i)
    as [r|] eqn:Er; [|discriminate].
  injection H as <-.
  destruct (projectOnMultiple_from_at _ _ _ _ _ _ _ Er) as [p [_ Hr]].
  cbn [Nat.add] in Hr. rewrite Hr.
  destruct (existsb (Nat.eqb i) projectors).
  - apply projectOn_shown. exact Hrefl.
  - destruct (isElementShown identifies element p) eqn:Es.
    + apply removeFrom_not_shown.
    + exact Es.
Qed.

(** X14. [projectOnMultiple] with no projector given takes the element off
    every projector of the store: afterwards [isProjected] is false. *)
Theorem projectOnMultiple_none_unprojects :
  forall (store : list Projector) (element : ProjectorElement) (http : Transport),
    isProjected identifies
      (store_after (projectOnMultiple identifies store [] element http))
      (element_object element)
    = false.
Proof.
  intros store element http. unfold isProjected, store_after, projectOnMultiple.
  change (getProjectorElement (element_object element)) with element.
  generalize 0%nat.
  induction store as [|p store IH]; intros k; [reflexivity|].
  cbn [projectOnMultiple_from map existsb]. rewrite IH, orb_false_r.
  destruct (isElementShown identifies element p) eqn:Es.
  - apply removeFrom_not_shown.
  - exact Es.
Qed.

(** X15. [projectOnMultiple] leaves a projector alone that is not among the
    given ones and does not show the element: its state is unchanged and no
    request is sent for it. There is one result for each projector of the
    store. *)
Theorem projectOnMultiple_untouched :
  forall (store : list Projector) (projectors : list nat)
         (element : ProjectorElement) (http : Transport)
         (i : nat) (p : Projector),
    nth_error store i = Some p ->
    existsb (Nat.eqb i) projectors = false ->
    isElementShown identifies element p = false ->
    nth_error (projectOnMultiple identifies store projectors element http) i
    = Some (mkResult (Resolved tt) p [])
    /\ List.length (projectOnMultiple identifies store projectors element http)
       = List.length store.
Proof.
  intros store projectors element http i p Hp Hsel Hshown.
  assert (Hlen : forall k,
             List.length (projectOnMultiple_from identifies k store projectors element http)
             = List.length store).
  { clear. induction store as [|q store IH]; intros k; [reflexivity|].
    cbn [projectOnMultiple_from List.length]. rewrite IH. reflexivity. }
  split; [|apply Hlen].
  destruct (nth_error (projectOnMultiple identifies store projectors element http) i)
    as [r|] eqn:Er.
  - destruct (projectOnMultiple_from_at _ _ _ _ _ _ _ Er) as [q [Hq Hr]].
    cbn [Nat.add] in Hr. rewrite Hsel in Hr.
    assert (q = p) by congruence. subst q. rewrite Hshown in Hr.
    rewrite Hr. reflexivity.
  - apply nth_error_None in Er. unfold projectOnMultiple in Er. rewrite Hlen in Er.
    assert (i < List.length store)%nat by (apply nth_error_Some; congruence).
    lia.
Qed.

End StoreFacts.

Lemma same_name_and_id_refl : forall e, same_name_and_id e e = true.
Proof.
  intros [n [i|] s]; unfold same_name_and_id; cbn;
    rewrite String.eqb_refl; [apply Z.eqb_refl | reflexivity].
Qed.

Lemma projectOnMultiple_shown_exactly_on_witness :
  same_name_and_id slide_B slide_B = true
  /\ nth_error
       (store_after (projectOnMultiple same_name_and_id example_store [1%nat; 2%nat]
                       slide_B (rejecting "offline"))) 0
     = Some (mkProjector 1 [slide_A] [] [])
  /\ isElementShown same_name_and_id slide_B (mkProjector 1 [slide_A] [] [])
     = existsb (Nat.eqb 0) [1%nat; 2%nat].
Proof.
  assert (Hr : same_name_and_id slide_B slide_B = true) by reflexivity.
  assert (Hn : nth_error
                 (store_after (projectOnMultiple same_name_and_id example_store
                                 [1%nat; 2%nat] slide_B (rejecting "offline"))) 0
               = Some (mkProjector 1 [slide_A] [] [])) by reflexivity.
  split; [exact Hr|]. split; [exact Hn|].
  exact (projectOnMultiple_shown_exactly_on same_name_and_id example_store
           [1%nat; 2%nat] slide_B (rejecting "offline") 0
           (mkProjector 1 [slide_A] [] []) Hr Hn).
Defined.

Lemma projectOnMultiple_untouched_witness :
  nth_error example_store 2 = Some (mkProjector 3 [slide_A] [slide_B] [])
  /\ existsb (Nat.eqb 2) [0%nat] = false
  /\ isElementShown same_name_and_id slide_B (mkProjector 3 [slide_A] [slide_B] [])
     = false
  /\ nth_error (projectOnMultiple same_name_and_id example_store [0%nat] slide_B
                  resolving) 2
     = Some (mkResult (Resolved tt) (mkProjector 3 [slide_A] [slide_B] []) []).
Proof.
  assert (H1 : nth_error example_store 2 = Some (mkProjector 3 [slide_A] [slide_B] []))
    by reflexivity.
  assert (H2 : existsb (Nat.eqb 2) [0%nat] = false) by reflexivity.
  assert (H3 : isElementShown same_name_and_id slide_B
                 (mkProjector 3 [slide_A] [slide_B] []) = false) by reflexivity.
  split; [exact H1|]. split; [exact H2|]. split; [exact H3|].
  exact (proj1 (projectOnMultiple_untouched same_name_and_id example_store [0%nat]
                  slide_B resolving 2 _ H1 H2 H3)).
Defined.

Lemma includes_In : forall l x, includes l x = true <-> In x l.
Proof.
  intros l x. unfold includes. rewrite existsb_exists. split.
  - intros [y [Hy E]]. apply String.eqb_eq in E. subst y. exact Hy.
  - intros H. exists x. split; [exact H | apply String.eqb_refl].
Qed.

(** X16. [getProjectorForDefault] returns the first projector of the store
    whose projection defaults include the name: every projector before it
    lacks the name, and the result is undefined exactly when every
    projector of the store lacks it. *)
Theorem getProjectorForDefault_first :
  forall (store : list ProjectorWithDefaults) (projectiondefault : string),
    let has := fun q =>
      includes (map pd_name (projectiondefaults q)) projectiondefault in
    match getProjectorForDefault store projectiondefault with
    | Some p =>
        exists before after,
          store = before ++ p :: after
          /\ has p = true
          /\ forallb (fun q => negb (has q)) before = true
    | None => forallb (fun q => negb (has q)) store = true
    end.
Proof.
  intros store d. cbv zeta. unfold getProjectorForDefault.
  induction store as [|q store IH]; [reflexivity|].
  cbn [find]. destruct (includes (map pd_name (projectiondefaults q)) d) eqn:E.
  - exists [], store. repeat split. exact E.
  - destruct (find _ store) as [p|].
    + destruct IH as [before [after [-> [Hp Hb]]]].
      exists (q :: before), after. repeat split; [exact Hp|].
      cbn [forallb]. rewrite E, Hb. reflexivity.
    + cbn [forallb]. rewrite E, IH. reflexivity.
Qed.

(** ** Mapping an element to its model *)

Section MappingFacts.

Variable canSlideBeMappedToModel : string -> bool.
Variables Model ViewModel : Type.
Variable DS_get : string -> option Z -> option Model.
Variable viewModelStore_get : string -> option Z -> option ViewModel.

(** X17. [getModelFromProjectorElement] returns, and then returns what the
    data store holds under the element's name and id, exactly when the slide
    manager can map the element's name and the element's identifiers include
    both [name] and [id]; in every other case it throws. *)
Theorem getModelFromProjectorElement_succeeds_iff :
  forall element : IdentifiableProjectorElement,
    let e := the_element element in
    (getModelFromProjectorElement canSlideBeMappedToModel Model DS_get element
     = inr (DS_get (name e) (id e))
     <-> canSlideBeMappedToModel (name e) = true
         /\ In "name" (getIdentifiers element)
         /\ In "id" (getIdentifiers element))
    /\ (forall m,
          getModelFromProjectorElement canSlideBeMappedToModel Model DS_get element
          = inr m ->
          m = DS_get (name e) (id e)).
Proof.
  intros element. cbv zeta.
  unfold getModelFromProjectorElement, assertElementIsMappable.
  rewrite <- !includes_In.
  destruct (canSlideBeMappedToModel (name (the_element element)));
    destruct (includes (getIdentifiers element) "name");
    destruct (includes (getIdentifiers element) "id"); cbn;
    (split; [split; [intros H; try discriminate; repeat split
                    | intros [H1 [H2 H3]]; try discriminate; reflexivity]
            | intros m H; try discriminate; congruence]).
Qed.

(** X18. The two lookups fail alike: [getViewModelFromProjectorElement]
    throws exactly when [getModelFromProjectorElement] throws, with the same
    message; and a name the slide manager cannot map gives the
    cannot-be-mapped error whatever the identifiers are. *)
Theorem model_and_view_model_fail_alike :
  forall (element : IdentifiableProjectorElement),
    (forall msg,
       getModelFromProjectorElement canSlideBeMappedToModel Model DS_get element
       = inl msg
       <-> getViewModelFromProjectorElement canSlideBeMappedToModel ViewModel
             viewModelStore_get element
           = inl msg)
    /\ (if canSlideBeMappedToModel (name (the_element element))
        then True
        else getModelFromProjectorElement canSlideBeMappedToModel Model DS_get element
             = inl cannot_be_mapped_msg).
Proof.
  intros element.
  unfold getModelFromProjectorElement, getViewModelFromProjectorElement,
    assertElementIsMappable.
  destruct (canSlideBeMappedToModel (name (the_element element))); cbn.
  - split; [|exact I]. intros msg.
    destruct (negb (includes (getIdentifiers element) "name")
              || negb (includes (getIdentifiers element) "id"));
      split; intros H; try discriminate; injection H as <-; reflexivity.
  - split; [|reflexivity]. intros msg.
    split; intros H; injection H as <-; reflexivity.
Qed.

End MappingFacts.

(** * Further properties of the login mask *)

(** X19. Clearing the operator subscription is idempotent: the first call
    unsubscribes at most once and leaves no subscription, a second call does
    nothing; after [ngOnDestroy] no value of the operator observable reaches
    the callback. *)
Theorem clearOperatorSubscription_idempotent :
  forall (c : LoginMask.Component) (users : list (option OperatorWatch.User)),
    let c1 := fst (OperatorWatch.ngOnDestroy c) in
    LoginMask.operatorSubscription c1 = false
    /\ snd (OperatorWatch.ngOnDestroy c)
       = (if LoginMask.operatorSubscription c then [LoginMask.Unsubscribe] else [])
    /\ LoginMask.clearOperatorSubscription c1 = (c1, [])
    /\ OperatorWatch.emit users c1 = (c1, []).
Proof.
  intros c users. cbv zeta.
  unfold OperatorWatch.ngOnDestroy, LoginMask.clearOperatorSubscription.
  destruct (LoginMask.operatorSubscription c) eqn:E; cbn [fst snd].
  - repeat split. destruct users; reflexivity.
  - rewrite E. repeat split. destruct users; cbn; rewrite ?E; reflexivity.
Qed.

Section FormLoginFacts.

Variable instant : string -> string.
Variable login : string -> string -> bool * option string.

(** X20. Every [formLogin] shows the blocking spinner and then calls
    [authService.login] once, with the user name and password the form
    holds, whatever the validity of the form and however the login ends;
    there is no second call. *)
Theorem formLogin_calls_login_once :
  forall c : LoginMask.Component,
    let u := LoginMask.value (LoginMask.username (LoginMask.loginForm c)) in
    let p := LoginMask.value (LoginMask.password (LoginMask.loginForm c)) in
    exists rest,
      snd (LoginMask.formLogin instant login c)
      = LoginMask.ShowSpinner (instant LoginMask.loginMessage) true
        :: LoginMask.AuthLogin u p :: rest
      /\ existsb LoginMask.is_AuthLogin rest = false.
Proof.
  intros c. cbv zeta. unfold LoginMask.formLogin.
  cbn [LoginMask.loginForm LoginMask.operatorSubscription].
  destruct (login _ _) as [called_back failure].
  unfold LoginMask.clearOperatorSubscription.
  cbn [LoginMask.operatorSubscription].
  destruct called_back, (LoginMask.operatorSubscription c), failure;
    cbn; eexists; split; reflexivity.
Qed.

(** X21. When the login fails with [e], [formLogin] hides the spinner as its
    last effect, keeps [e] as [loginErrorMsg], and leaves the form invalid
    under the [notFound] error, with the values the user typed. *)
Theorem formLogin_failure :
  forall (c : LoginMask.Component) (e : string),
    snd (login (LoginMask.value (LoginMask.username (LoginMask.loginForm c)))
               (LoginMask.value (LoginMask.password (LoginMask.loginForm c))))
    = Some e ->
    let r := LoginMask.formLogin instant login c in
    LoginMask.loginErrorMsg (fst r) = e
    /\ LoginMask.group_errors (LoginMask.loginForm (fst r)) = [LoginMask.notFound]
    /\ LoginMask.valid (LoginMask.loginForm (fst r)) = false
    /\ LoginMask.username (LoginMask.loginForm (fst r))
       = LoginMask.username (LoginMask.loginForm c)
    /\ LoginMask.password (LoginMask.loginForm (fst r))
       = LoginMask.password (LoginMask.loginForm c)
    /\ last (snd r) LoginMask.Unsubscribe = LoginMask.HideSpinner.
Proof.
  intros c e H. cbv zeta. unfold LoginMask.formLogin.
  cbn [LoginMask.loginForm LoginMask.operatorSubscription] in *.
  destruct (login _ _) as [called_back failure]. cbn [snd] in H. subst failure.
  unfold LoginMask.clearOperatorSubscription.
  cbn [LoginMask.operatorSubscription].
  assert (V : forall f, LoginMask.valid (LoginMask.setErrors_notFound f) = false).
  { intros f. unfold LoginMask.valid, LoginMask.setErrors_notFound.
    cbn [LoginMask.group_errors LoginMask.username LoginMask.password].
    destruct (LoginMask.control_errors (LoginMask.username f));
      destruct (LoginMask.control_errors (LoginMask.password f)); reflexivity. }
  destruct called_back, (LoginMask.operatorSubscription c);
    cbn [fst snd LoginMask.loginForm LoginMask.loginErrorMsg];
    rewrite V; repeat split.
Qed.

(** X22. When the login succeeds, [formLogin] leaves the form as it is,
    clears an error message left by an earlier attempt, and does not hide
    the spinner itself. *)
Theorem formLogin_success :
  forall c : LoginMask.Component,
    snd (login (LoginMask.value (LoginMask.username (LoginMask.loginForm c)))
               (LoginMask.value (LoginMask.password (LoginMask.loginForm c))))
    = None ->
    let r := LoginMask.formLogin instant login c in
    LoginMask.loginErrorMsg (fst r) = ""
    /\ LoginMask.loginForm (fst r) = LoginMask.loginForm c
    /\ existsb (fun x => match x with LoginMask.HideSpinner => true | _ => false end)
         (snd r) = false.
Proof.
  intros c H. cbv zeta. unfold LoginMask.formLogin.
  cbn [LoginMask.loginForm LoginMask.operatorSubscription] in *.
  destruct (login _ _) as [called_back failure]. cbn [snd] in H. subst failure.
  unfold LoginMask.clearOperatorSubscription.
  cbn [LoginMask.operatorSubscription].
  destruct called_back, (LoginMask.operatorSubscription c); repeat split.
Qed.

(** X23. Once the login has taken control through its callback, the operator
    watch is off: no later value of the operator observable reaches the
    callback, so the component redirects nobody. *)
Theorem formLogin_takes_control :
  forall (c : LoginMask.Component) (users : list (option OperatorWatch.User)),
    fst (login (LoginMask.value (LoginMask.username (LoginMask.loginForm c)))
               (LoginMask.value (LoginMask.password (LoginMask.loginForm c))))
    = true ->
    let c' := fst (LoginMask.formLogin instant login c) in
    LoginMask.operatorSubscription c' = false
    /\ snd (OperatorWatch.emit users c') = [].
Proof.
  intros c users H. cbv zeta.
  assert (Hoff : LoginMask.operatorSubscription
                   (fst (LoginMask.formLogin instant login c)) = false).
  { unfold LoginMask.formLogin.
    cbn [LoginMask.loginForm LoginMask.operatorSubscription] in *.
    destruct (login _ _) as [called_back failure]. cbn [fst] in H. subst called_back.
    unfold LoginMask.clearOperatorSubscription.
    cbn [LoginMask.operatorSubscription].
    destruct (LoginMask.operatorSubscription c) eqn:E, failure;
      cbn [fst LoginMask.operatorSubscription]; try reflexivity; exact E. }
  split; [exact Hoff|].
  destruct users; cbn [OperatorWatch.emit]; [reflexivity|].
  rewrite Hoff. reflexivity.
Qed.

End FormLoginFacts.

(** X24. While the component holds the subscription, the first user the
    operator observable yields is the one redirected: the component
    unsubscribes, redirects to that user's id, and ignores every value
    after it. Null values before it do nothing. *)
Theorem operator_watch_redirects_once :
  forall (k : nat) (u : OperatorWatch.User) (rest : list (option OperatorWatch.User))
         (c : LoginMask.Component),
    LoginMask.operatorSubscription c = true ->
    let r := OperatorWatch.emit (repeat None k ++ Some u :: rest) c in
    snd r
    = [OperatorWatch.Did LoginMask.Unsubscribe;
       OperatorWatch.RedirectUser (OperatorWatch.user_id u)]
    /\ LoginMask.operatorSubscription (fst r) = false.
Proof.
  intros k u rest c H. cbv zeta.
  induction k as [|k IH].
  - cbn [repeat app OperatorWatch.emit]. rewrite H.
    unfold OperatorWatch.onUser, LoginMask.clearOperatorSubscription. rewrite H.
    destruct rest; cbn; split; reflexivity.
  - cbn [repeat app OperatorWatch.emit]. rewrite H.
    cbn [OperatorWatch.onUser].
    destruct (OperatorWatch.emit (repeat None k ++ Some u :: rest) c) as [c2 a2].
    exact IH.
Qed.

Lemma formLogin_failure_witness :
  snd ((fun _ _ : string => (true, Some "wrong")) "admin" "secret") = Some "wrong"
  /\ LoginMask.loginErrorMsg
       (fst (LoginMask.formLogin (fun s => s) (fun _ _ => (true, Some "wrong"))
               (typed "admin" "secret")))
     = "wrong".
Proof.
  split; [reflexivity|].
  exact (proj1 (formLogin_failure (fun s => s) (fun _ _ => (true, Some "wrong"))
                  (typed "admin" "secret") "wrong" eq_refl)).
Defined.

Lemma formLogin_success_witness :
  snd (accepting "admin" "secret") = None
  /\ LoginMask.loginErrorMsg
       (fst (LoginMask.formLogin (fun s => s) accepting
               (LoginMask.mkComponent
                  (LoginMask.setErrors_notFound
                     (LoginMask.fill LoginMask.createForm "admin" "secret"))
                  "wrong" true)))
     = "".
Proof.
  split; [reflexivity|].
  exact (proj1 (formLogin_success (fun s => s) accepting
                  (LoginMask.mkComponent
                     (LoginMask.setErrors_notFound
                        (LoginMask.fill LoginMask.createForm "admin" "secret"))
                     "wrong" true) eq_refl)).
Defined.

Lemma formLogin_takes_control_witness :
  fst ((fun _ _ : string => (true, @None string)) "admin" "secret") = true
  /\ snd (OperatorWatch.emit [Some (OperatorWatch.mkUser 5)]
            (fst (LoginMask.formLogin (fun s => s) (fun _ _ => (true, None))
                    (OperatorWatch.subscribeOperator (typed "admin" "secret")))))
     = [].
Proof.
  split; [reflexivity|].
  exact (proj2 (formLogin_takes_control (fun s => s) (fun _ _ => (true, None))
                  (OperatorWatch.subscribeOperator (typed "admin" "secret"))
                  [Some (OperatorWatch.mkUser 5)] eq_refl)).
Defined.

Lemma operator_watch_redirects_once_witness :
  LoginMask.operatorSubscription
    (OperatorWatch.subscribeOperator (typed "" "")) = true
  /\ snd (OperatorWatch.emit
            (repeat None 2 ++ Some (OperatorWatch.mkUser 5)
               :: [Some (OperatorWatch.mkUser 6)])
            (OperatorWatch.subscribeOperator (typed "" "")))
     = [OperatorWatch.Did LoginMask.Unsubscribe; OperatorWatch.RedirectUser 5].
Proof.
  split; [reflexivity|].
  exact (proj1 (operator_watch_redirects_once 2 (OperatorWatch.mkUser 5)
                  [Some (OperatorWatch.mkUser 6)]
                  (OperatorWatch.subscribeOperator (typed "" "")) eq_refl)).
Defined.
